(** * x_tracker / x_web_tracker: polling, dedup and watermark persistence

    A shallow embedding of the two trackers of the repository:
    - [src/x_tracker/tracker.py]  (API based, several accounts, JSON state file),
    - [x_web_tracker/tracker.py]  (page scraping, one account, [last_id.txt]).

    Python [str] values are sequences of Unicode code points ([list N]);
    dictionaries are insertion-ordered association lists; the file system of
    the API tracker is a finite map from paths to nodes. The network adapters
    (X API, Telegram, the browser) are the environment: their outcomes are
    supplied by oracles that thread a world state. *)

From Stdlib Require Import NArith Lia String Ascii.
From stdpp Require Import base option list gmap.

Local Open Scope N_scope.

(** ** Python text *)

Abbreviation str := (list N) (only parsing).

(** An ASCII literal of the source as a sequence of code points. *)
Definition lit (s : string) : str :=
  List.map N_of_ascii (list_ascii_of_string s).

Module PyStr.

(** [str.isspace] on one code point (the Unicode white space of CPython). *)
Definition isspace (c : N) : bool :=
  ((9 <=? c) && (c <=? 13)) || ((28 <=? c) && (c <=? 32))
  || (c =? 133) || (c =? 160) || (c =? 5760)
  || ((8192 <=? c) && (c <=? 8202))
  || (c =? 8232) || (c =? 8233) || (c =? 8239) || (c =? 8287) || (c =? 12288).

Fixpoint lstrip (s : str) : str :=
  match s with
  | c :: r => if isspace c then lstrip r else s
  | [] => []
  end.

Definition rstrip (s : str) : str := rev (lstrip (rev s)).

(** [s.strip()] *)
Definition strip (s : str) : str := rstrip (lstrip s).

(** Text-mode reading with [newline=None]: "\r\n" and "\r" become "\n". *)
Fixpoint universal_newlines (s : str) : str :=
  match s with
  | [] => []
  | c :: r =>
      if c =? 13 then
        match r with
        | d :: r' => if d =? 10 then 10 :: universal_newlines r'
                     else 10 :: universal_newlines r
        | [] => [10]
        end
      else c :: universal_newlines r
  end.

End PyStr.

(** ** Python dictionaries (insertion ordered, unique keys) *)

Module PyDict.
Section Dict.
Context {V : Type}.

(** [d[k]] as an option ([KeyError] is [None]). *)
Fixpoint lookup (k : str) (d : list (str * V)) : option V :=
  match d with
  | [] => None
  | (k', v) :: r => if decide (k' = k) then Some v else lookup k r
  end.

(** [d[k] = v]: an existing key keeps its position, a new one goes last. *)
Fixpoint set (k : str) (v : V) (d : list (str * V)) : list (str * V) :=
  match d with
  | [] => [(k, v)]
  | (k', v') :: r =>
      if decide (k' = k) then (k, v) :: r else (k', v') :: set k v r
  end.

Definition keys (d : list (str * V)) : list str := List.map fst d.

(** [dict(pairs)] and dict comprehensions: assignments in order. *)
Definition of_pairs (ps : list (str * V)) : list (str * V) :=
  fold_left (fun d kv => set (fst kv) (snd kv) d) ps [].

End Dict.
End PyDict.

(** [d.get(k)] on a dictionary of optional values: a missing key and a
    stored [None] both give [None]. *)
Definition dict_get (k : str) (d : list (str * option str)) : option str :=
  match PyDict.lookup k d with
  | Some v => v
  | None => None
  end.

(** ** The [json] module on flat documents

    The state file is an object whose values are strings or [null].
    [dumps] is [json.dumps(d, indent=2)] with the default [ensure_ascii];
    [loads] is [json.loads] on such documents (a document with any other
    kind of value is outside the model and gives [None], like a document
    that does not parse). *)

Module Json.

Definition hexdigit (d : N) : N := if d <? 10 then 48 + d else 87 + d.

(** ['{0:04x}'.format(n)] for [n < 0x10000] *)
Definition fmt_04x (n : N) : str :=
  [hexdigit (n / 4096 mod 16); hexdigit (n / 256 mod 16);
   hexdigit (n / 16 mod 16); hexdigit (n mod 16)].

Definition u_escape (n : N) : str := 92 :: 117 :: fmt_04x n.

(** The replacement of one code point in [py_encode_basestring_ascii]. *)
Definition escape_char (c : N) : str :=
  if c =? 92 then [92; 92]
  else if c =? 34 then [92; 34]
  else if c =? 8 then [92; 98]
  else if c =? 12 then [92; 102]
  else if c =? 10 then [92; 110]
  else if c =? 13 then [92; 114]
  else if c =? 9 then [92; 116]
  else if (32 <=? c) && (c <=? 126) then [c]
  else if c <? 65536 then u_escape c
  else
    let n := c - 65536 in
    u_escape (N.lor 55296 (N.land (N.shiftr n 10) 1023))
      ++ u_escape (N.lor 56320 (N.land n 1023)).

Definition encode_basestring_ascii (s : str) : str :=
  34 :: flat_map escape_char s ++ [34].

Definition encode_value (v : option str) : str :=
  match v with
  | Some s => encode_basestring_ascii s
  | None => lit "null"
  end.

Definition encode_item (kv : str * option str) : str :=
  encode_basestring_ascii (fst kv) ++ lit ": " ++ encode_value (snd kv).

(** The items after the first, each preceded by the item separator. *)
Definition encode_more (items : list (str * option str)) : str :=
  flat_map (fun kv => 44 :: 10 :: 32 :: 32 :: encode_item kv) items.

(** [_iterencode_dict] at indent level 0 with [indent=2]. *)
Definition dumps (d : list (str * option str)) : str :=
  match d with
  | [] => lit "{}"
  | kv :: rest =>
      123 :: 10 :: 32 :: 32 :: encode_item kv ++ encode_more rest ++ [10; 125]
  end.

Definition hexval (c : N) : option N :=
  if (48 <=? c) && (c <=? 57) then Some (c - 48)
  else if (97 <=? c) && (c <=? 102) then Some (c - 87)
  else if (65 <=? c) && (c <=? 70) then Some (c - 55)
  else None.

Definition decode_uXXXX (h1 h2 h3 h4 : N) : option N :=
  match hexval h1, hexval h2, hexval h3, hexval h4 with
  | Some a, Some b, Some c, Some d => Some (((a * 16 + b) * 16 + c) * 16 + d)
  | _, _, _, _ => None
  end.

Definition is_high (u : N) : bool := (55296 <=? u) && (u <=? 56319).
Definition is_low (u : N) : bool := (56320 <=? u) && (u <=? 57343).

Definition join_surrogates (u u2 : N) : N :=
  65536 + N.lor (N.shiftl (u - 55296) 10) (u2 - 56320).

(** The [BACKSLASH] table. *)
Definition backslash (e : N) : option N :=
  if e =? 34 then Some 34
  else if e =? 92 then Some 92
  else if e =? 47 then Some 47
  else if e =? 98 then Some 8
  else if e =? 102 then Some 12
  else if e =? 110 then Some 10
  else if e =? 114 then Some 13
  else if e =? 116 then Some 9
  else None.

Definition starts_u (s : str) : bool :=
  match s with
  | b :: r => (b =? 92) && match r with u :: _ => u =? 117 | [] => false end
  | [] => false
  end.

Definition cons_char (c : N) (r : option (str * str)) : option (str * str) :=
  match r with
  | Some (d, rest) => Some (c :: d, rest)
  | None => None
  end.

(** [py_scanstring] (strict) from just after the opening quote: the decoded
    string and the text after the closing quote. *)
Fixpoint scanstring (s : str) : option (str * str) :=
  match s with
  | [] => None
  | c :: r =>
      if c =? 34 then Some ([], r)
      else if c =? 92 then
        match r with
        | [] => None
        | esc :: r1 =>
            if esc =? 117 then
              match r1 with
              | h1 :: h2 :: h3 :: h4 :: r2 =>
                  match decode_uXXXX h1 h2 h3 h4 with
                  | None => None
                  | Some uni =>
                      if is_high uni && starts_u r2 then
                        match r2 with
                        | _ :: _ :: l1 :: l2 :: l3 :: l4 :: r3 =>
                            match decode_uXXXX l1 l2 l3 l4 with
                            | None => None
                            | Some uni2 =>
                                if is_low uni2
                                then cons_char (join_surrogates uni uni2)
                                       (scanstring r3)
                                else cons_char uni (scanstring r2)
                            end
                        | _ => None
                        end
                      else cons_char uni (scanstring r2)
                  end
              | _ => None
              end
            else
              match backslash esc with
              | Some ch => cons_char ch (scanstring r1)
              | None => None
              end
        end
      else if c <? 32 then None
      else cons_char c (scanstring r)
  end.

Definition is_ws (c : N) : bool :=
  (c =? 32) || (c =? 9) || (c =? 10) || (c =? 13).

Fixpoint skip_ws (s : str) : str :=
  match s with
  | c :: r => if is_ws c then skip_ws r else s
  | [] => []
  end.

(** A value: a string or [null]. *)
Definition parse_value (s : str) : option (option str * str) :=
  match s with
  | c :: r =>
      if c =? 34 then
        match scanstring r with
        | Some (v, rest) => Some (Some v, rest)
        | None => None
        end
      else
        match s with
        | n :: u :: l1 :: l2 :: rest =>
            if (n =? 110) && (u =? 117) && (l1 =? 108) && (l2 =? 108)
            then Some (None, rest) else None
        | _ => None
        end
  | [] => None
  end.

(** The member loop of [JSONObject], entered at the opening quote of a key.
    Every round consumes text, so the length of the text is fuel enough. *)
Fixpoint parse_members (fuel : nat) (s : str)
    (acc : list (str * option str)) : option (list (str * option str) * str) :=
  match fuel with
  | O => None
  | S fuel' =>
      match s with
      | q :: s1 =>
          if q =? 34 then
            match scanstring s1 with
            | None => None
            | Some (key, s2) =>
                match skip_ws s2 with
                | colon :: s3 =>
                    if colon =? 58 then
                      match parse_value (skip_ws s3) with
                      | None => None
                      | Some (v, s4) =>
                          match skip_ws s4 with
                          | d :: s5 =>
                              if d =? 125 then Some (acc ++ [(key, v)], s5)
                              else if d =? 44
                              then parse_members fuel' (skip_ws s5)
                                     (acc ++ [(key, v)])
                              else None
                          | [] => None
                          end
                      end
                    else None
                | [] => None
                end
            end
          else None
      | [] => None
      end
  end.

Definition finish (pairs : list (str * option str)) (rest : str)
    : option (list (str * option str)) :=
  match skip_ws rest with
  | [] => Some (PyDict.of_pairs pairs)
  | _ :: _ => None
  end.

(** [json.loads]: an object, white space around it, nothing after it. *)
Definition loads (s : str) : option (list (str * option str)) :=
  match skip_ws s with
  | b :: s1 =>
      if b =? 123 then
        match skip_ws s1 with
        | c :: s3 =>
            if c =? 125 then finish [] s3
            else
              match parse_members (length (c :: s3)) (c :: s3) [] with
              | Some (pairs, rest) => finish pairs rest
              | None => None
              end
        | [] => None
        end
      else None
  | [] => None
  end.

End Json.

(** ** Exceptions and results *)

Inductive exn :=
| RuntimeError
| RequestException
| JSONDecodeError
| FileNotFoundError
| FileExistsError
| NotADirectoryError
| IsADirectoryError.

Inductive result (A : Type) :=
| Ok (a : A)
| Raise (e : exn).
Arguments Ok {A} a.
Arguments Raise {A} e.

(** ** The file system of the API tracker

    A path is its list of components, innermost first, so that the parent of
    [name :: dir] is [dir]; the empty path is the base directory, which
    always exists. A text file holds the text that was written to it. *)

Inductive node :=
| Dir
| File (content : str).

Module Fs.

Definition parent (p : list str) : list str := tail p.

Definition node_at (fs : gmap (list str) node) (p : list str) : option node :=
  match p with
  | [] => Some Dir
  | _ :: _ => fs !! p
  end.

(** [Path.exists] *)
Definition exists_ (fs : gmap (list str) node) (p : list str) : bool :=
  match node_at fs p with Some _ => true | None => false end.

(** [Path.is_dir] *)
Definition is_dir (fs : gmap (list str) node) (p : list str) : bool :=
  match node_at fs p with Some Dir => true | _ => false end.

(** [os.mkdir] *)
Definition os_mkdir (p : list str) (fs : gmap (list str) node)
    : result (gmap (list str) node) :=
  match node_at fs (parent p) with
  | None => Raise FileNotFoundError
  | Some (File _) => Raise NotADirectoryError
  | Some Dir =>
      match node_at fs p with
      | Some _ => Raise FileExistsError
      | None => Ok (<[p := Dir]> fs)
      end
  end.

(** [Path.mkdir(parents=False, exist_ok=True)] *)
Definition mkdir_exist_ok (p : list str) (fs : gmap (list str) node)
    : result (gmap (list str) node) :=
  match os_mkdir p fs with
  | Ok fs' => Ok fs'
  | Raise FileNotFoundError => Raise FileNotFoundError
  | Raise e => if is_dir fs p then Ok fs else Raise e
  end.

(** [Path.mkdir(parents=True, exist_ok=True)] *)
Fixpoint mkdir_parents (p : list str) (fs : gmap (list str) node)
    : result (gmap (list str) node) :=
  match os_mkdir p fs with
  | Ok fs' => Ok fs'
  | Raise FileNotFoundError =>
      match p with
      | [] => Raise FileNotFoundError
      | _ :: dir =>
          match mkdir_parents dir fs with
          | Ok fs1 => mkdir_exist_ok p fs1
          | Raise e => Raise e
          end
      end
  | Raise e => if is_dir fs p then Ok fs else Raise e
  end.

(** [open(p, "w")]: the file is created or truncated at once. *)
Definition open_w (p : list str) (fs : gmap (list str) node)
    : result (gmap (list str) node) :=
  match node_at fs (parent p) with
  | None => Raise FileNotFoundError
  | Some (File _) => Raise NotADirectoryError
  | Some Dir =>
      match node_at fs p with
      | Some Dir => Raise IsADirectoryError
      | _ => Ok (<[p := File []]> fs)
      end
  end.

(** What was written reaches the open file when it is flushed or closed. *)
Definition flush (p : list str) (text : str) (fs : gmap (list str) node)
    : gmap (list str) node :=
  <[p := File text]> fs.

(** [open(p, "r").read()] *)
Definition read_text (p : list str) (fs : gmap (list str) node) : result str :=
  match node_at fs p with
  | None => Raise FileNotFoundError
  | Some Dir => Raise IsADirectoryError
  | Some (File text) => Ok (PyStr.universal_newlines text)
  end.

End Fs.

(** ** [src/x_tracker/tracker.py] *)

Module XTracker.

Record TrackerConfig := {
  x_bearer_token : str;
  telegram_bot_token : str;
  telegram_chat_id : str;
  accounts : list str;
  poll_seconds : N;
  state_file : list str
}.

(** A tweet of the API response: the fields the tracker reads. *)
Record tweet := { tw_id : str; tw_text : str }.

(** The calls that reach the network, in order. A send is delivered when
    [send_message] returned without raising. *)
Inductive event :=
| CallGetUserId (username : str)
| CallFetch (user_id : str) (since_id : option str)
| CallSend (text : str) (delivered : bool).

(** The network: each request either returns or raises, and moves the
    world on. [tweets_request] is the GET of [fetch_latest_tweets] with the
    [since_id] parameter it sends (if any), up to the [data] of the answer;
    [telegram_post] is the POST of [send_message] and gives the status. *)
Record Network (W : Type) := {
  get_user_id : str -> W -> result str * W;
  tweets_request : str -> option str -> W -> result (list tweet) * W;
  telegram_post : str -> W -> result N * W
}.
Arguments get_user_id {W} _ _ _.
Arguments tweets_request {W} _ _ _ _.
Arguments telegram_post {W} _ _ _.

(** The tracker object and what surrounds it. [st_seen] lists every file
    system state that other processes could observe, oldest first. *)
Record St (W : Type) := {
  st_state : list (str * option str);
  st_world : W;
  st_log : list event;
  st_fs : gmap (list str) node;
  st_seen : list (gmap (list str) node)
}.
Arguments st_state {W} _.
Arguments st_world {W} _.
Arguments st_log {W} _.
Arguments st_fs {W} _.
Arguments st_seen {W} _.

Section Tracker.
Context {W : Type} (net : Network W) (config : TrackerConfig).

Definition M (A : Type) : Type := St W -> result A * St W.

Definition ret {A} (a : A) : M A := fun st => (Ok a, st).

Definition bind {A B} (m : M A) (k : A -> M B) : M B :=
  fun st =>
    match m st with
    | (Ok a, st') => k a st'
    | (Raise e, st') => (Raise e, st')
    end.

Notation "'let*' x ':=' m 'in' k" := (bind m (fun x => k))
  (at level 10, x name, m at level 99, k at level 200).
Notation "m ';;' k" := (bind m (fun _ => k))
  (at level 100, k at level 200, right associativity).

Definition raise {A} (e : exn) : M A := fun st => (Raise e, st).

Fixpoint for_each {A} (l : list A) (body : A -> M unit) : M unit :=
  match l with
  | [] => ret tt
  | x :: r => body x ;; for_each r body
  end.

Definition emit (ev : event) : M unit :=
  fun st =>
    (Ok tt, {| st_state := st_state st; st_world := st_world st;
               st_log := st_log st ++ [ev]; st_fs := st_fs st;
               st_seen := st_seen st |}).

(** One request: the world answers and moves on. *)
Definition request {A} (call : W -> result A * W) : M A :=
  fun st =>
    let '(r, w') := call (st_world st) in
    (r, {| st_state := st_state st; st_world := w';
           st_log := st_log st; st_fs := st_fs st;
           st_seen := st_seen st |}).

(** One step on the file system; its outcome becomes observable. *)
Definition fs_step (op : gmap (list str) node -> result (gmap (list str) node))
    : M unit :=
  fun st =>
    match op (st_fs st) with
    | Ok fs' =>
        (Ok tt, {| st_state := st_state st; st_world := st_world st;
                   st_log := st_log st; st_fs := fs';
                   st_seen := st_seen st ++ [fs'] |})
    | Raise e => (Raise e, st)
    end.

(** [XClient.get_user_id] *)
Definition x_get_user_id (username : str) : M str :=
  emit (CallGetUserId username) ;;
  request (get_user_id net username).

(** [XClient.fetch_latest_tweets]: [since_id] is sent when it is truthy. *)
Definition fetch_latest_tweets (user_id : str) (since_id : option str)
    : M (list tweet) :=
  let param :=
    match since_id with
    | Some (c :: s) => Some (c :: s)
    | _ => None
    end in
  emit (CallFetch user_id param) ;;
  request (tweets_request net user_id param).

(** [TelegramNotifier.send_message]: [raise_for_status] raises on
    statuses 400 to 599. *)
Definition send_message (text : str) : M unit :=
  fun st =>
    match request (telegram_post net text) st with
    | (Ok status, st') =>
        if (400 <=? status) && (status <? 600)
        then (emit (CallSend text false) ;; raise RuntimeError) st'
        else emit (CallSend text true) st'
    | (Raise e, st') => (emit (CallSend text false) ;; raise e) st'
    end.

(** [ActivityTracker._load_state] on the file system [fs]. A stored
    document that [Json.loads] does not read raises. *)
Definition _load_state (fs : gmap (list str) node)
    : result (list (str * option str)) :=
  if Fs.exists_ fs (state_file config) then
    match Fs.read_text (state_file config) fs with
    | Raise e => Raise e
    | Ok text =>
        match Json.loads text with
        | None => Raise JSONDecodeError
        | Some stored =>
            Ok (PyDict.of_pairs
                  (List.map (fun account => (account, dict_get account stored))
                     (accounts config)))
        end
    end
  else
    Ok (PyDict.of_pairs
          (List.map (fun account => (account, @None str)) (accounts config))).

(** [ActivityTracker.__init__] *)
Definition init (w : W) (fs : gmap (list str) node) : result (St W) :=
  match _load_state fs with
  | Ok state =>
      Ok {| st_state := state; st_world := w; st_log := [];
            st_fs := fs; st_seen := [fs] |}
  | Raise e => Raise e
  end.

(** [ActivityTracker._persist_state] *)
Definition _persist_state : M unit :=
  fs_step (Fs.mkdir_parents (Fs.parent (state_file config))) ;;
  fs_step (Fs.open_w (state_file config)) ;;
  fun st =>
    fs_step (fun fs => Ok (Fs.flush (state_file config)
                             (Json.dumps (st_state st)) fs)) st.

(** [ActivityTracker._format_message] *)
Definition _format_message (username : str) (tw : tweet) : str :=
  let link := lit "https://twitter.com/" ++ username ++ lit "/status/"
              ++ tw_id tw in
  [240; 376; 167; 173; 32; 208; 208; 190; 208; 178; 208; 176; 209; 32;
   208; 176; 208; 186; 209; 8218; 208; 184; 208; 178; 208; 189; 208; 190;
   209; 209; 8218; 209; 338; 32; 64] ++ username ++ [10]
  ++ tw_text tw ++ [10; 10]
  ++ [208; 161; 209; 209; 8249; 208; 187; 208; 186; 208; 176; 58; 32] ++ link.

(** [ActivityTracker._notify] *)
Definition _notify (username : str) (tweets : list tweet) : M unit :=
  for_each (rev tweets)
    (fun tw => send_message (_format_message username tw)).

Definition get_state (username : str) : M (option str) :=
  fun st => (Ok (dict_get username (st_state st)), st).

Definition set_state (username : str) (v : option str) : M unit :=
  fun st =>
    (Ok tt, {| st_state := PyDict.set username v (st_state st);
               st_world := st_world st; st_log := st_log st;
               st_fs := st_fs st; st_seen := st_seen st |}).

(** The body of the loop of [check_once]. *)
Definition check_account (username : str) : M unit :=
  let* user_id := x_get_user_id username in
  let* since_id := get_state username in
  let* tweets := fetch_latest_tweets user_id since_id in
  match tweets with
  | newest :: _ =>
      set_state username (Some (tw_id newest)) ;;
      _notify username tweets
  | [] => ret tt
  end.

(** [ActivityTracker.check_once] *)
Definition check_once : M unit :=
  for_each (accounts config) check_account ;;
  _persist_state.

(** [ActivityTracker.run], cut after [n] rounds ([time.sleep] only waits). *)
Fixpoint run (n : nat) : M unit :=
  match n with
  | O => ret tt
  | S n' => check_once ;; run n'
  end.

End Tracker.

(** The texts that were delivered, in order. *)
Definition delivered (log : list event) : list str :=
  omap (fun ev => match ev with CallSend text true => Some text | _ => None end)
    log.

(** The texts handed to [send_message], in order. *)
Definition send_calls (log : list event) : list str :=
  omap (fun ev => match ev with CallSend text _ => Some text | _ => None end)
    log.

End XTracker.

(** ** [x_web_tracker/tracker.py] *)

Module Web.

(** A scraped tweet: [id], [url], [text]. *)
Record tweet := { id : str; url : str; text : str }.

(** The validated environment of [load_config]. *)
Record Config := {
  X_USERNAME : str;
  TELEGRAM_BOT_TOKEN : str;
  TELEGRAM_CHAT_ID : str
}.

(** What [requests.post] does: an answer with a status, or a
    [requests.RequestException]. *)
Inductive post_outcome :=
| Response (status_code : N)
| RequestFailed.

(** The environment: [extract_tweets] gives the scraped page (it returns the
    empty list on every failure of its own), [post] is the POST of
    [send_to_telegram]. *)
Record Network (W : Type) := {
  extract_tweets : str -> W -> list tweet * W;
  post : str -> W -> post_outcome * W
}.
Arguments extract_tweets {W} _ _ _.
Arguments post {W} _ _ _.

(** One call of [send_to_telegram] and whether the message arrived. *)
Record send_event := { sent_text : str; arrived : bool }.

(** [last_id.txt] (absent, or its text), the world, and the sends so far. *)
Record St (W : Type) := {
  last_id_file : option str;
  world : W;
  sends : list send_event
}.
Arguments last_id_file {W} _.
Arguments world {W} _.
Arguments sends {W} _.

(** The loop of [main] that collects the tweets before the last seen one. *)
Fixpoint scan_new (tweets : list tweet) (last_seen_id : str) : list tweet :=
  match tweets with
  | [] => []
  | tw :: r =>
      if decide (id tw = last_seen_id) then [] else tw :: scan_new r last_seen_id
  end.

(** The decision of [main] on a fetched page and the stored identifier:
    the tweets to announce, oldest first, and the identifier to store. *)
Definition diff (tweets : list tweet) (last_seen_id : option str)
    : list tweet * option str :=
  match tweets with
  | [] => ([], last_seen_id)
  | newest :: _ =>
      match last_seen_id with
      | None => ([], Some (id newest))
      | Some seen => (rev (scan_new tweets seen), Some (id newest))
      end
  end.

Section Main.
Context {W : Type} (net : Network W) (config : Config).

(** [read_last_id] *)
Definition read_last_id (st : St W) : option str :=
  match last_id_file st with
  | None => None
  | Some raw =>
      match PyStr.strip (PyStr.universal_newlines raw) with
      | [] => None
      | c :: s => Some (c :: s)
      end
  end.

(** [write_last_id] *)
Definition write_last_id (tweet_id : str) (st : St W) : St W :=
  {| last_id_file := Some tweet_id; world := world st; sends := sends st |}.

(** [send_to_telegram]: it returns normally whatever the POST does. *)
Definition send_to_telegram (message : str) (st : St W) : St W :=
  let '(outcome, w') := post net message (world st) in
  let ok :=
    match outcome with
    | Response status => status =? 200
    | RequestFailed => false
    end in
  {| last_id_file := last_id_file st; world := w';
     sends := sends st ++ [{| sent_text := message; arrived := ok |}] |}.

Definition message_of (username : str) (tw : tweet) : str :=
  lit "New tweet from @" ++ username ++ [58; 10] ++ url tw ++ [10; 10]
  ++ text tw.

Definition send_all (username : str) (tweets : list tweet) (st : St W)
    : St W :=
  fold_left (fun st tw => send_to_telegram (message_of username tw) st)
    tweets st.

(** [main] *)
Definition main (st : St W) : St W :=
  let username := X_USERNAME config in
  let last_seen_id := read_last_id st in
  let '(tweets, w') := extract_tweets net username (world st) in
  let st1 := {| last_id_file := last_id_file st; world := w';
                sends := sends st |} in
  match tweets with
  | [] => st1
  | newest :: _ =>
      let newest_id := id newest in
      match last_seen_id with
      | None => write_last_id newest_id st1
      | Some seen =>
          let new_tweets := scan_new tweets seen in
          let st2 :=
            match new_tweets with
            | [] => st1
            | _ :: _ => send_all username (rev new_tweets) st1
            end in
          write_last_id newest_id st2
      end
  end.

End Main.

End Web.

(** ** Runs, examples and the properties the statements below speak of *)

Module WebRuns.

(** [n] successive runs of the script. *)
Fixpoint main_n {W} (net : Web.Network W) (config : Web.Config) (n : nat)
    (st : Web.St W) : Web.St W :=
  match n with
  | O => st
  | S n' => main_n net config n' (Web.main net config st)
  end.

(** An identifier that [read_last_id] gives back as it was written. *)
Definition kept_by_file (i : str) : Prop :=
  PyStr.strip (PyStr.universal_newlines i) = i /\ i <> [].


Definition tw (i : string) : Web.tweet :=
  {| Web.id := lit i; Web.url := lit "https://x.com/u/status/" ++ lit i;
     Web.text := lit "post " ++ lit i |}.

(** A world that is the list of pages still to be scraped; every POST is
    answered with the given outcome. *)
Definition pages_net (outcome : Web.post_outcome)
    : Web.Network (list (list Web.tweet)) :=
  {| Web.extract_tweets := fun _ w =>
       match w with
       | page :: later => (page, later)
       | [] => ([], [])
       end;
     Web.post := fun _ w => (outcome, w) |}.

(** A world in which the profile always shows the same page. *)
Definition steady_net (page : list Web.tweet) (outcome : Web.post_outcome)
    : Web.Network unit :=
  {| Web.extract_tweets := fun _ w => (page, w);
     Web.post := fun _ w => (outcome, w) |}.

Definition cfg : Web.Config :=
  {| Web.X_USERNAME := lit "u"; Web.TELEGRAM_BOT_TOKEN := lit "t";
     Web.TELEGRAM_CHAT_ID := lit "1" |}.

Definition start (file : option str) (pages : list (list Web.tweet))
    : Web.St (list (list Web.tweet)) :=
  {| Web.last_id_file := file; Web.world := pages; Web.sends := [] |}.

End WebRuns.

(** A file system in which every node lies in a directory. *)
Definition fs_wf (fs : gmap (list str) node) : Prop :=
  forall p n, fs !! p = Some n -> Fs.is_dir fs (Fs.parent p) = true.

(** Text of line feeds and printable ASCII. *)
Definition ascii_text (s : str) : Prop :=
  Forall (fun c => c = 10 \/ (32 <= c /\ c <= 126)) s.

(** From [fs] to [fs'] only directories were added, all of them on the way
    to [p]. *)
Definition only_dirs_added (p : list str) (fs fs' : gmap (list str) node)
    : Prop :=
  forall q, Fs.node_at fs' q = Fs.node_at fs q
            \/ (q `suffix_of` p /\ Fs.node_at fs q = None
                /\ Fs.node_at fs' q = Some Dir).

Module Demo.
Import XTracker.

Definition tweet_ (i : string) : tweet :=
  {| tw_id := lit i; tw_text := lit "post " ++ lit i |}.

(** A network in which the user [bad] cannot be resolved, every other
    account shows the tweets 103, 102, 101, and Telegram answers every POST
    with [status]. *)
Definition net (bad : str) (status : N) : Network unit :=
  {| get_user_id := fun u w =>
       if decide (u = bad) then (Raise RuntimeError, w)
       else (Ok (lit "id-" ++ u), w);
     tweets_request := fun _ _ w =>
       (Ok [tweet_ "103"; tweet_ "102"; tweet_ "101"], w);
     telegram_post := fun _ w => (Ok status, w) |}.

Definition cfg (accts : list str) : TrackerConfig :=
  {| x_bearer_token := lit "x"; telegram_bot_token := lit "t";
     telegram_chat_id := lit "1"; accounts := accts; poll_seconds := 120;
     state_file := [lit "tracker_state.json"; lit "data"] |}.

(** A tracker object holding [state] over the file system [fs]. *)
Definition tracker (state : list (str * option str))
    (fs : gmap (list str) node) : St unit :=
  {| st_state := state; st_world := tt; st_log := []; st_fs := fs;
     st_seen := [fs] |}.

Definition ex_state : list (str * option str) :=
  [(lit "acct1", Some (lit "100")); (lit "acct2", None)].

End Demo.

(** A state file left by an earlier configuration: it still has an entry
    for the account "old". *)
Definition old_fs : gmap (list str) node :=
  Fs.flush [lit "tracker_state.json"; lit "data"]
    (Json.dumps [(lit "old", Some (lit "7")); (lit "Y", Some (lit "100"))])
    (<[[lit "data"] := Dir]> ∅).

(** A save is atomic when every file system state it lets others observe
    shows the state file either as it was or with the full new snapshot. *)
Definition atomic_save {W} (config : XTracker.TrackerConfig)
    (st st' : XTracker.St W) : Prop :=
  forall fs,
    fs ∈ drop (length (XTracker.st_seen st)) (XTracker.st_seen st') ->
    Fs.node_at fs (XTracker.state_file config)
      = Fs.node_at (XTracker.st_fs st) (XTracker.state_file config)
    \/ Fs.node_at fs (XTracker.state_file config)
       = Some (File (Json.dumps (XTracker.st_state st))).

(** Python text: code points below 0x110000, and no high surrogate directly
    followed by a low surrogate (such a pair is what one code point above
    0xFFFF is written as, so [json] reads it back as that code point). *)
Fixpoint text_ok (s : str) : bool :=
  match s with
  | [] => true
  | c :: r =>
      (c <? 1114112)
      && negb (Json.is_high c && match r with d :: _ => Json.is_low d | [] => false end)
      && text_ok r
  end.

(** What follows a lone high surrogate must not read as a low surrogate. *)
Definition no_low_escape (t : str) : Prop :=
  Json.starts_u t = false \/
  exists l1 l2 l3 l4 r3 u2,
    t = 92 :: 117 :: l1 :: l2 :: l3 :: l4 :: r3 /\
    Json.decode_uXXXX l1 l2 l3 l4 = Some u2 /\ Json.is_low u2 = false.

(** A state whose handles and identifiers are Python text. *)
Definition item_ok (kv : str * option str) : bool :=
  text_ok (fst kv) && match snd kv with Some v => text_ok v | None => true end.

Definition state_text_ok (d : list (str * option str)) : bool :=
  forallb item_ok d.

(** ** More of Python's [str]: splitting, prefixes, stripping one character *)

Module PyText.

(** [s.split(sep)] for a separator of one character: never the empty list. *)
Fixpoint split_on (sep : N) (s : str) : list str :=
  match s with
  | [] => [[]]
  | c :: r =>
      if c =? sep then [] :: split_on sep r
      else
        match split_on sep r with
        | piece :: pieces => (c :: piece) :: pieces
        | [] => [[c]]
        end
  end.

(** [pieces[-1]] of a split. *)
Definition last_piece (pieces : list str) : str := List.last pieces [].

(** [s.lstrip(ch)] and [s.rstrip(ch)] for one character. *)
Fixpoint lstrip_char (ch : N) (s : str) : str :=
  match s with
  | c :: r => if c =? ch then lstrip_char ch r else s
  | [] => []
  end.

Definition rstrip_char (ch : N) (s : str) : str :=
  rev (lstrip_char ch (rev s)).

(** [s.startswith(pat)] *)
Fixpoint startswith (pat s : str) : bool :=
  match pat, s with
  | [], _ => true
  | p :: pat', c :: r => (p =? c) && startswith pat' r
  | _ :: _, [] => false
  end.

(** [pat in s] *)
Fixpoint contains (pat s : str) : bool :=
  startswith pat s
  || match s with
     | [] => false
     | _ :: r => contains pat r
     end.

End PyText.

(** ** [extract_tweets] of the web tracker: from the loaded page to tweets *)

Module Scrape.

(** An element matching [data-testid="tweet"]: the [href] of its status
    link (no link, or a link without the attribute) and its inner text. *)
Record element := { link_href : option (option str); inner_text : str }.

(** What the browser did: the page loaded and gave these elements, the
    navigation timed out, or anything else was raised. *)
Inductive page_outcome :=
| Loaded (tweet_elements : list element)
| TimedOut
| Crashed.

Definition BASE_URL : str := lit "https://x.com".

(** [href.rstrip("/").split("/")[-1]] *)
Definition tweet_id_of (href : str) : str :=
  PyText.last_piece (PyText.split_on 47 (PyText.rstrip_char 47 href)).

Definition url_of (href : str) : str :=
  if PyText.startswith (lit "http") href then href else BASE_URL ++ href.

(** The loop over the elements, with its [seen_ids] and [tweets]. *)
Fixpoint collect (elements : list element) (seen_ids : list str)
    (tweets : list Web.tweet) (max_tweets : nat) : list Web.tweet :=
  match elements with
  | [] => tweets
  | el :: rest =>
      match link_href el with
      | Some (Some (c :: h)) =>
          let href := c :: h in
          if PyText.contains (lit "/status/") href then
            let tweet_id := tweet_id_of href in
            if decide (tweet_id ∈ seen_ids) then
              collect rest seen_ids tweets max_tweets
            else
              let tweets' :=
                tweets ++ [{| Web.id := tweet_id; Web.url := url_of href;
                              Web.text := PyStr.strip (inner_text el) |}] in
              if (max_tweets <=? length tweets')%nat then tweets'
              else collect rest (tweet_id :: seen_ids) tweets' max_tweets
          else collect rest seen_ids tweets max_tweets
      | _ => collect rest seen_ids tweets max_tweets
      end
  end.

(** [extract_tweets] once the browser has answered: every failure gives
    the empty list. *)
Definition extract_from (outcome : page_outcome) (max_tweets : nat)
    : list Web.tweet :=
  match outcome with
  | Loaded elements => collect elements [] [] max_tweets
  | TimedOut => []
  | Crashed => []
  end.

(** The network of the web tracker over a browser: [extract_tweets] opens
    the profile page and keeps at most 10 tweets. *)
Definition net {W} (browse : str -> W -> page_outcome * W)
    (post : str -> W -> Web.post_outcome * W) : Web.Network W :=
  {| Web.extract_tweets := fun username w =>
       let '(outcome, w') := browse (BASE_URL ++ [47] ++ username) w in
       (extract_from outcome 10, w');
     Web.post := post |}.

Definition no_space (s : str) : Prop :=
  Forall (fun c => PyStr.isspace c = false) s.

End Scrape.

(** ** Configuration from the environment *)

Module Env.

(** [os.getenv]: the value of a variable, if it is set. *)
Definition truthy (v : option str) : bool :=
  match v with
  | Some (_ :: _) => true
  | _ => false
  end.

(** The list comprehension of [TrackerConfig.from_env] over
    [TRACKED_ACCOUNTS]. *)
Definition parse_accounts (accounts_raw : str) : list str :=
  List.map (fun account => PyText.lstrip_char 64 (PyStr.strip account))
    (List.filter (fun account =>
                    match PyStr.strip account with [] => false | _ :: _ => true end)
       (PyText.split_on 44 accounts_raw)).

Inductive config_error :=
| NoAccounts
| MissingVariable (name : str)
| NotAnInteger (text : str).

(** [TrackerConfig] as [from_env] fills it: [poll_seconds] is a Python
    integer and [state_file] the text handed to [Path]. *)
Record Settings := {
  x_bearer_token : str;
  telegram_bot_token : str;
  telegram_chat_id : str;
  accounts : list str;
  poll_seconds : Z;
  state_file : str
}.

(** [_require_env] *)
Definition _require_env (getenv : str -> option str) (name : str)
    : config_error + str :=
  match getenv name with
  | Some (c :: v) => inr (c :: v)
  | _ => inl (MissingVariable name)
  end.

Definition getenv_default (getenv : str -> option str) (name default : str)
    : str :=
  match getenv name with
  | Some v => v
  | None => default
  end.

Section FromEnv.
(** [int] on text is not modelled: it is a parameter. *)
Variable py_int : str -> option Z.

(** [TrackerConfig.from_env], on the environment after [load_dotenv]. *)
Definition from_env (getenv : str -> option str) : config_error + Settings :=
  let accounts_raw := getenv_default getenv (lit "TRACKED_ACCOUNTS") [] in
  match parse_accounts accounts_raw with
  | [] => inl NoAccounts
  | a :: l =>
      match _require_env getenv (lit "X_BEARER_TOKEN") with
      | inl e => inl e
      | inr bearer =>
          match _require_env getenv (lit "TELEGRAM_BOT_TOKEN") with
          | inl e => inl e
          | inr bot =>
              match _require_env getenv (lit "TELEGRAM_CHAT_ID") with
              | inl e => inl e
              | inr chat =>
                  let text := getenv_default getenv (lit "POLL_SECONDS") (lit "120") in
                  match py_int text with
                  | None => inl (NotAnInteger text)
                  | Some n =>
                      inr {| x_bearer_token := bearer;
                             telegram_bot_token := bot;
                             telegram_chat_id := chat;
                             accounts := a :: l;
                             poll_seconds := n;
                             state_file :=
                               getenv_default getenv (lit "STATE_FILE")
                                 (lit "tracker_state.json") |}
                  end
              end
          end
      end
  end.

End FromEnv.

(** [load_config] of the web tracker: the configuration, or the names it
    prints before [sys.exit(1)]. *)
Definition load_config (getenv : str -> option str) : list str + Web.Config :=
  let required_vars :=
    [(lit "X_USERNAME", getenv (lit "X_USERNAME"));
     (lit "TELEGRAM_BOT_TOKEN", getenv (lit "TELEGRAM_BOT_TOKEN"));
     (lit "TELEGRAM_CHAT_ID", getenv (lit "TELEGRAM_CHAT_ID"))] in
  let missing :=
    List.map fst (List.filter (fun nv => negb (truthy (snd nv))) required_vars) in
  match missing with
  | _ :: _ => inl missing
  | [] =>
      match getenv (lit "X_USERNAME"), getenv (lit "TELEGRAM_BOT_TOKEN"),
            getenv (lit "TELEGRAM_CHAT_ID") with
      | Some u, Some t, Some c =>
          inr {| Web.X_USERNAME := u; Web.TELEGRAM_BOT_TOKEN := t;
                 Web.TELEGRAM_CHAT_ID := c |}
      | _, _, _ => inl missing
      end
  end.

End Env.

(** ** What a log says *)

(** The accounts handed to [get_user_id], in order. *)
Definition resolved (log : list XTracker.event) : list str :=
  omap (fun ev => match ev with
                  | XTracker.CallGetUserId u => Some u
                  | _ => None
                  end) log.

(** The [since_id] parameters of the fetches, in order. *)
Definition fetch_params (log : list XTracker.event) : list (option str) :=
  omap (fun ev => match ev with
                  | XTracker.CallFetch _ p => Some p
                  | _ => None
                  end) log.

(** A browser that shows the same elements on every visit. *)
Definition steady_browser (elements : list Scrape.element)
    : str -> unit -> Scrape.page_outcome * unit :=
  fun _ w => (Scrape.Loaded elements, w).

Definition link (href text : string) : Scrape.element :=
  {| Scrape.link_href := Some (Some (lit href)); Scrape.inner_text := lit text |}.

(** The tweet that [extract_tweets] makes of an element with the link
    [href]. *)
Definition tweet_of (href : str) (el : Scrape.element) : Web.tweet :=
  {| Web.id := Scrape.tweet_id_of href; Web.url := Scrape.url_of href;
     Web.text := PyStr.strip (Scrape.inner_text el) |}.

(** An element the loop of [extract_tweets] does not skip for its link. *)
Definition status_link (el : Scrape.element) (href : str) : Prop :=
  Scrape.link_href el = Some (Some href) /\ href <> []
  /\ PyText.contains (lit "/status/") href = true.

(** The [since_id] that [fetch_latest_tweets] sends for a stored value:
    none for [None] and for the empty string. *)
Definition since_param (stored : option str) : option str :=
  match stored with
  | Some (c :: s) => Some (c :: s)
  | _ => None
  end.

(** An event of [_notify]. *)
Definition is_send (ev : XTracker.event) : Prop :=
  match ev with
  | XTracker.CallSend _ _ => True
  | _ => False
  end.

(** An environment for the examples: every variable is set to [value],
    except [TRACKED_ACCOUNTS], set to [tracked]. *)
Definition example_env (tracked value : str) : str -> option str :=
  fun name =>
    if decide (name = lit "TRACKED_ACCOUNTS") then Some tracked else Some value.

(* ================================================================== *)
(** * Properties *)
(* ================================================================== *)

(** ** Arithmetic of the escapes *)

Lemma N_below (P : N -> Prop) (k : nat) :
  (forall i : nat, (i < k)%nat -> P (N.of_nat i)) ->
  forall n, n < N.of_nat k -> P n.
Proof.
  intros H n Hn. rewrite <- (N2Nat.id n). apply H. lia.
Qed.

Lemma hexval_hexdigit d : d < 16 -> Json.hexval (Json.hexdigit d) = Some d.
Proof.
  revert d. apply (N_below _ 16). intros i Hi.
  do 16 (destruct i as [|i]; [reflexivity|]). lia.
Qed.

Lemma decode_fmt_04x n :
  n < 65536 ->
  Json.decode_uXXXX (Json.hexdigit (n / 4096 mod 16))
    (Json.hexdigit (n / 256 mod 16)) (Json.hexdigit (n / 16 mod 16))
    (Json.hexdigit (n mod 16)) = Some n.
Proof.
  intros Hn. unfold Json.decode_uXXXX.
  rewrite !hexval_hexdigit by (apply N.mod_lt; lia).
  f_equal.
  pose proof (N.div_mod n 16 ltac:(lia)) as H0.
  pose proof (N.div_mod (n / 16) 16 ltac:(lia)) as H1.
  pose proof (N.div_mod (n / 256) 16 ltac:(lia)) as H2.
  rewrite N.Div0.div_div in H1, H2. change (16 * 16) with 256 in H1.
  change (256 * 16) with 4096 in H2.
  assert (n / 4096 < 16) by (apply N.Div0.div_lt_upper_bound; lia).
  rewrite (N.mod_small (n / 4096)) by lia.
  lia.
Qed.

Lemma lor_disjoint a b k : b < 2 ^ k -> N.lor (a * 2 ^ k) b = a * 2 ^ k + b.
Proof.
  intros Hb.
  assert (Hland : N.land (a * 2 ^ k) b = 0).
  { apply N.bits_inj. intros i. rewrite N.land_spec, N.bits_0.
    destruct (N.lt_ge_cases i k) as [Hi|Hi].
    - rewrite N.mul_pow2_bits_low by exact Hi. reflexivity.
    - rewrite <- (N.mod_small b (2 ^ k)) by exact Hb.
      rewrite N.mod_pow2_bits_high by exact Hi. apply andb_false_r. }
  rewrite <- N.lxor_lor by exact Hland.
  symmetry. apply N.add_nocarry_lxor. exact Hland.
Qed.

Lemma high_surrogate_of n :
  N.lor 55296 (N.land (N.shiftr n 10) 1023) = 55296 + (n / 1024) mod 1024.
Proof.
  change 1023 with (N.ones 10). rewrite N.land_ones, N.shiftr_div_pow2.
  change (2 ^ 10) with 1024.
  change 55296 with (54 * 2 ^ 10). apply lor_disjoint.
  change (2 ^ 10) with 1024. apply N.mod_lt. lia.
Qed.

Lemma low_surrogate_of n :
  N.lor 56320 (N.land n 1023) = 56320 + n mod 1024.
Proof.
  change 1023 with (N.ones 10). rewrite N.land_ones.
  change (2 ^ 10) with 1024.
  change 56320 with (55 * 2 ^ 10). apply lor_disjoint.
  change (2 ^ 10) with 1024. apply N.mod_lt. lia.
Qed.

Lemma join_surrogates_spec hi lo :
  lo < 1024 ->
  Json.join_surrogates (55296 + hi) (56320 + lo) = 65536 + hi * 1024 + lo.
Proof.
  intros Hlo. unfold Json.join_surrogates.
  replace (55296 + hi - 55296) with hi by lia.
  replace (56320 + lo - 56320) with lo by lia.
  rewrite N.shiftl_mul_pow2, lor_disjoint by exact Hlo.
  change (2 ^ 10) with 1024. lia.
Qed.

(** ** Scanning an encoded string *)

Lemma scan_quote t : Json.scanstring (34 :: t) = Some ([], t).
Proof. reflexivity. Qed.

Lemma scan_plain c t :
  32 <= c -> c <> 34 -> c <> 92 ->
  Json.scanstring (c :: t) = Json.cons_char c (Json.scanstring t).
Proof.
  intros H32 H34 H92. cbn [Json.scanstring].
  destruct (N.eqb_spec c 34); [congruence|].
  destruct (N.eqb_spec c 92); [congruence|].
  destruct (N.ltb_spec c 32); [lia|]. reflexivity.
Qed.

Lemma scan_backslash e ch t :
  e <> 117 -> Json.backslash e = Some ch ->
  Json.scanstring (92 :: e :: t) = Json.cons_char ch (Json.scanstring t).
Proof.
  intros He Hb. cbn [Json.scanstring].
  change (92 =? 34) with false. change (92 =? 92) with true. cbv iota.
  destruct (N.eqb_spec e 117); [congruence|]. rewrite Hb. reflexivity.
Qed.

Lemma scan_u_unfold h1 h2 h3 h4 r2 :
  Json.scanstring (92 :: 117 :: h1 :: h2 :: h3 :: h4 :: r2) =
  match Json.decode_uXXXX h1 h2 h3 h4 with
  | None => None
  | Some uni =>
      if Json.is_high uni && Json.starts_u r2 then
        match r2 with
        | _ :: _ :: l1 :: l2 :: l3 :: l4 :: r3 =>
            match Json.decode_uXXXX l1 l2 l3 l4 with
            | None => None
            | Some uni2 =>
                if Json.is_low uni2
                then Json.cons_char (Json.join_surrogates uni uni2)
                       (Json.scanstring r3)
                else Json.cons_char uni (Json.scanstring r2)
            end
        | _ => None
        end
      else Json.cons_char uni (Json.scanstring r2)
  end.
Proof. reflexivity. Qed.

Lemma scan_u c t :
  c < 65536 -> (Json.is_high c = true -> no_low_escape t) ->
  Json.scanstring (Json.u_escape c ++ t) = Json.cons_char c (Json.scanstring t).
Proof.
  intros Hc Ht. unfold Json.u_escape, Json.fmt_04x. cbn [app].
  rewrite scan_u_unfold, decode_fmt_04x by exact Hc.
  destruct (Json.is_high c) eqn:Hh; [|reflexivity].
  destruct (Ht eq_refl) as [Hs|(l1 & l2 & l3 & l4 & r3 & u2 & -> & Hd & Hl)].
  - rewrite Hs. reflexivity.
  - cbn [andb Json.starts_u]. change (92 =? 92) with true.
    change (117 =? 117) with true. cbn [andb]. rewrite Hd, Hl. reflexivity.
Qed.

Lemma scan_pair hi lo t :
  hi < 1024 -> lo < 1024 ->
  Json.scanstring (Json.u_escape (55296 + hi) ++ Json.u_escape (56320 + lo) ++ t)
  = Json.cons_char (65536 + hi * 1024 + lo) (Json.scanstring t).
Proof.
  intros Hhi Hlo. unfold Json.u_escape, Json.fmt_04x. cbn [app].
  rewrite scan_u_unfold, decode_fmt_04x by lia.
  assert (Hh : Json.is_high (55296 + hi) = true).
  { unfold Json.is_high. apply andb_true_intro. split; apply N.leb_le; lia. }
  rewrite Hh. cbn [andb Json.starts_u]. change (92 =? 92) with true.
  change (117 =? 117) with true. cbn [andb].
  rewrite decode_fmt_04x by lia.
  assert (Hl : Json.is_low (56320 + lo) = true).
  { unfold Json.is_low. apply andb_true_intro. split; apply N.leb_le; lia. }
  rewrite Hl, join_surrogates_spec by exact Hlo. reflexivity.
Qed.

Lemma escape_char_cases c :
  c < 1114112 ->
  (exists e, Json.escape_char c = [92; e] /\ e <> 117 /\ Json.backslash e = Some c)
  \/ (Json.escape_char c = [c] /\ 32 <= c <= 126 /\ c <> 34 /\ c <> 92)
  \/ (Json.escape_char c = Json.u_escape c /\ c < 65536 /\ (c < 32 \/ 126 < c))
  \/ (exists hi lo,
        Json.escape_char c = Json.u_escape (55296 + hi) ++ Json.u_escape (56320 + lo)
        /\ hi < 1024 /\ lo < 1024 /\ c = 65536 + hi * 1024 + lo).
Proof.
  intros Hc. unfold Json.escape_char.
  destruct (N.eqb_spec c 92) as [->|]; [left; exists 92; repeat split; easy|].
  destruct (N.eqb_spec c 34) as [->|]; [left; exists 34; repeat split; easy|].
  destruct (N.eqb_spec c 8) as [->|]; [left; exists 98; repeat split; easy|].
  destruct (N.eqb_spec c 12) as [->|]; [left; exists 102; repeat split; easy|].
  destruct (N.eqb_spec c 10) as [->|]; [left; exists 110; repeat split; easy|].
  destruct (N.eqb_spec c 13) as [->|]; [left; exists 114; repeat split; easy|].
  destruct (N.eqb_spec c 9) as [->|]; [left; exists 116; repeat split; easy|].
  destruct (N.leb_spec 32 c); destruct (N.leb_spec c 126); cbn [andb];
    try (right; left; repeat split; (reflexivity || lia)).
  all: destruct (N.ltb_spec c 65536);
    try (right; right; left; repeat split; (reflexivity || lia)).
  all: right; right; right; cbv zeta;
    rewrite high_surrogate_of, low_surrogate_of;
    exists ((c - 65536) / 1024 mod 1024), ((c - 65536) mod 1024);
    (split; [reflexivity|]);
    pose proof (N.div_mod (c - 65536) 1024 ltac:(lia));
    assert ((c - 65536) / 1024 < 1024) by (apply N.Div0.div_lt_upper_bound; lia);
    rewrite (N.mod_small ((c - 65536) / 1024)) by lia;
    pose proof (N.mod_lt (c - 65536) 1024 ltac:(lia)); lia.
Qed.

Lemma is_low_false_high u : Json.is_high u = true -> Json.is_low u = false.
Proof.
  unfold Json.is_high, Json.is_low. intros [H1 H2]%andb_prop.
  apply N.leb_le in H1, H2. apply andb_false_intro1. apply N.leb_gt. lia.
Qed.

(** The encoding of text whose first code point is no low surrogate does
    not begin with the escape of a low surrogate. *)
Lemma no_low_escape_encoding s rest :
  text_ok s = true ->
  match s with d :: _ => Json.is_low d = false | [] => True end ->
  no_low_escape (flat_map Json.escape_char s ++ 34 :: rest).
Proof.
  destruct s as [|d s]; intros Hok Hd.
  - left. reflexivity.
  - cbn [text_ok] in Hok. apply andb_prop in Hok as [[Hlt _]%andb_prop _].
    apply N.ltb_lt in Hlt. cbn [flat_map]. rewrite <- app_assoc.
    destruct (escape_char_cases d Hlt)
      as [(e & -> & He & _)|[(-> & Hr & H34 & H92)|[(-> & Hd16 & _)|
          (hi & lo & -> & Hhi & Hlo & ->)]]].
    + left. cbn. destruct (N.eqb_spec e 117); [congruence|reflexivity].
    + left. cbn. destruct (N.eqb_spec d 92); [congruence|reflexivity].
    + right. unfold Json.u_escape, Json.fmt_04x. cbn [app].
      do 5 eexists. exists d. split; [reflexivity|].
      split; [apply decode_fmt_04x; exact Hd16|exact Hd].
    + right. rewrite <- app_assoc. unfold Json.u_escape at 1, Json.fmt_04x. cbn [app].
      do 5 eexists. exists (55296 + hi). split; [reflexivity|].
      split; [apply decode_fmt_04x; lia|].
      apply is_low_false_high. unfold Json.is_high.
      apply andb_true_intro. split; apply N.leb_le; lia.
Qed.

Lemma scanstring_encode s rest :
  text_ok s = true ->
  Json.scanstring (flat_map Json.escape_char s ++ 34 :: rest) = Some (s, rest).
Proof.
  induction s as [|c s IH]; intros Hok.
  - apply scan_quote.
  - pose proof Hok as Hok'. cbn [text_ok] in Hok.
    apply andb_prop in Hok as [[Hlt Hpair]%andb_prop Hs].
    apply N.ltb_lt in Hlt. apply negb_true_iff in Hpair.
    cbn [flat_map]. rewrite <- app_assoc.
    destruct (escape_char_cases c Hlt)
      as [(e & -> & He & Hb)|[(-> & Hr & H34 & H92)|[(-> & Hc16 & _)|
          (hi & lo & -> & Hhi & Hlo & ->)]]].
    + cbn [app]. rewrite (scan_backslash e c) by assumption.
      rewrite IH by exact Hs. reflexivity.
    + cbn [app]. rewrite scan_plain by lia. rewrite IH by exact Hs. reflexivity.
    + rewrite scan_u; [rewrite IH by exact Hs; reflexivity|exact Hc16|].
      intros Hh. rewrite Hh in Hpair. cbn [andb] in Hpair.
      apply no_low_escape_encoding; [exact Hs|].
      destruct s; [exact I|exact Hpair].
    + rewrite <- app_assoc, scan_pair by assumption.
      rewrite IH by exact Hs. reflexivity.
Qed.

(** ** Reading back a dumped object *)

Lemma skip_ws_stop c t : Json.is_ws c = false -> Json.skip_ws (c :: t) = c :: t.
Proof. intros H. cbn [Json.skip_ws]. rewrite H. reflexivity. Qed.

Lemma encode_item_app k v tail :
  Json.encode_item (k, v) ++ tail =
  34 :: (flat_map Json.escape_char k ++ 34 :: 58 :: 32 :: (Json.encode_value v ++ tail)).
Proof.
  unfold Json.encode_item, Json.encode_basestring_ascii. cbn [fst snd].
  change (lit ": ") with [58; 32]. cbn [app].
  rewrite <- !app_assoc. reflexivity.
Qed.

Lemma parse_value_encode v tail :
  match v with Some s => text_ok s = true | None => True end ->
  Json.parse_value (Json.encode_value v ++ tail) = Some (v, tail).
Proof.
  destruct v as [s|]; intros Hv.
  - unfold Json.encode_value, Json.encode_basestring_ascii. cbn [app].
    rewrite <- app_assoc. cbn [app Json.parse_value].
    change (34 =? 34) with true. cbv iota.
    rewrite scanstring_encode by exact Hv. reflexivity.
  - reflexivity.
Qed.

Lemma encode_value_head v tail :
  exists c t, Json.encode_value v ++ tail = c :: t /\ Json.is_ws c = false.
Proof.
  destruct v as [s|].
  - exists 34. eexists. split; [reflexivity|reflexivity].
  - exists 110. eexists. split; [reflexivity|reflexivity].
Qed.

Lemma parse_members_step fuel k v acc rest :
  text_ok k = true ->
  match v with Some s => text_ok s = true | None => True end ->
  Json.parse_members (S fuel) (Json.encode_item (k, v) ++ rest) acc =
  match Json.skip_ws rest with
  | d :: s5 =>
      if d =? 125 then Some (acc ++ [(k, v)], s5)
      else if d =? 44
      then Json.parse_members fuel (Json.skip_ws s5) (acc ++ [(k, v)])
      else None
  | [] => None
  end.
Proof.
  intros Hk Hv. rewrite encode_item_app. cbn [Json.parse_members].
  change (34 =? 34) with true. cbv iota.
  rewrite scanstring_encode by exact Hk.
  rewrite (skip_ws_stop 58) by reflexivity.
  change (58 =? 58) with true. cbv iota.
  change (Json.skip_ws (32 :: ?t)) with (Json.skip_ws t).
  destruct (encode_value_head v rest) as (c0 & t0 & E0 & W0).
  rewrite E0, skip_ws_stop, <- E0 by exact W0.
  rewrite parse_value_encode by exact Hv. reflexivity.
Qed.

Lemma parse_members_encode items :
  forall kv acc fuel tail,
    state_text_ok (kv :: items) = true ->
    (length items < fuel)%nat ->
    Json.parse_members fuel
      (Json.encode_item kv ++ Json.encode_more items ++ 10 :: 125 :: tail) acc
    = Some (acc ++ kv :: items, tail).
Proof.
  induction items as [|kv' items IH]; intros [k v] acc fuel tail Hok Hfuel;
    (destruct fuel as [|fuel]; [cbn [length] in Hfuel; lia|]);
    cbn [state_text_ok forallb] in Hok;
    apply andb_prop in Hok as [[Hk Hv]%andb_prop Hitems]; cbn [fst snd] in Hk, Hv;
    rewrite parse_members_step by first [exact Hk | destruct v; [exact Hv|exact I]].
  - reflexivity.
  - cbn [Json.encode_more flat_map app].
    rewrite (skip_ws_stop 44) by reflexivity.
    change (44 =? 125) with false. change (44 =? 44) with true. cbv iota.
    fold (Json.encode_more items). rewrite <- app_assoc.
    change (Json.skip_ws (10 :: 32 :: 32 :: ?t)) with (Json.skip_ws t).
    destruct kv' as [k' v']. rewrite encode_item_app, (skip_ws_stop 34) by reflexivity.
    rewrite <- encode_item_app.
    rewrite IH; [|exact Hitems|cbn [length] in Hfuel; lia].
    rewrite <- app_assoc. reflexivity.
Qed.

Lemma length_encode_more items :
  (length items <= length (Json.encode_more items))%nat.
Proof.
  induction items as [|kv items IH]; [reflexivity|].
  cbn [Json.encode_more flat_map]. fold (Json.encode_more items).
  cbn [app length]. rewrite length_app. cbn [length]. lia.
Qed.

Lemma set_fresh {V} (k : str) (v : V) d :
  k ∉ PyDict.keys d -> PyDict.set k v d = d ++ [(k, v)].
Proof.
  induction d as [|[k' v'] d IH]; intros Hk; [reflexivity|].
  cbn [PyDict.set]. cbn in Hk. apply not_elem_of_cons in Hk as [Hne Hk].
  destruct (decide (k' = k)); [congruence|]. rewrite IH by exact Hk. reflexivity.
Qed.

Lemma of_pairs_nodup_from {V} (ps acc : list (str * V)) :
  NoDup (PyDict.keys (acc ++ ps)) ->
  fold_left (fun d kv => PyDict.set (fst kv) (snd kv) d) ps acc = acc ++ ps.
Proof.
  revert acc. induction ps as [|[k v] ps IH]; intros acc Hnd.
  - cbn. rewrite app_nil_r. reflexivity.
  - cbn [fold_left fst snd]. rewrite set_fresh.
    + rewrite IH; rewrite <- app_assoc; [reflexivity|exact Hnd].
    + unfold PyDict.keys in *. rewrite map_app in Hnd. cbn in Hnd.
      apply NoDup_app in Hnd as (_ & Hdis & _).
      intros Hin. apply (Hdis k Hin). left.
Qed.

Lemma of_pairs_nodup {V} (d : list (str * V)) :
  NoDup (PyDict.keys d) -> PyDict.of_pairs d = d.
Proof. intros H. unfold PyDict.of_pairs. apply (of_pairs_nodup_from d []). exact H. Qed.

(** [json.loads(json.dumps(d, indent=2)) == d] for a dictionary of text. *)
Lemma loads_dumps d :
  NoDup (PyDict.keys d) -> state_text_ok d = true ->
  Json.loads (Json.dumps d) = Some d.
Proof.
  intros Hnd Hok. destruct d as [|[k v] items]; [reflexivity|].
  unfold Json.dumps, Json.loads.
  rewrite (skip_ws_stop 123) by reflexivity.
  change (123 =? 123) with true. cbv iota.
  change (Json.skip_ws (10 :: 32 :: 32 :: ?t)) with (Json.skip_ws t).
  rewrite encode_item_app, (skip_ws_stop 34) by reflexivity.
  change (34 =? 125) with false. cbv iota.
  rewrite <- encode_item_app.
  change [10; 125] with (10 :: 125 :: @nil N).
  rewrite parse_members_encode; [|exact Hok|].
  - unfold Json.finish. cbn [Json.skip_ws app]. rewrite of_pairs_nodup by exact Hnd.
    reflexivity.
  - rewrite encode_item_app. cbn [length]. rewrite !length_app. cbn [length].
    rewrite !length_app. pose proof (length_encode_more items). lia.
Qed.

(** ** The web tracker: the scan and [main] *)

Section WebFacts.
Context {W : Type} (net : Web.Network W) (config : Web.Config).

Lemma send_all_cons u t r (st : Web.St W) :
  Web.send_all net u (t :: r) st
  = Web.send_all net u r (Web.send_to_telegram net (Web.message_of u t) st).
Proof. reflexivity. Qed.

Lemma send_all_file tweets (st : Web.St W) :
  Web.last_id_file (Web.send_all net (Web.X_USERNAME config) tweets st)
  = Web.last_id_file st.
Proof.
  revert st. induction tweets as [|t r IH]; intros st; [reflexivity|].
  rewrite send_all_cons, IH. unfold Web.send_to_telegram.
  destruct (Web.post net _ (Web.world st)) as [o w']. reflexivity.
Qed.

Lemma send_all_texts tweets (st : Web.St W) :
  List.map Web.sent_text
    (Web.sends (Web.send_all net (Web.X_USERNAME config) tweets st))
  = List.map Web.sent_text (Web.sends st)
    ++ List.map (Web.message_of (Web.X_USERNAME config)) tweets.
Proof.
  revert st. induction tweets as [|t r IH]; intros st.
  - cbn. rewrite app_nil_r. reflexivity.
  - rewrite send_all_cons, IH. unfold Web.send_to_telegram.
    destruct (Web.post net _ (Web.world st)) as [o w']. cbn [Web.sends].
    rewrite map_app, <- app_assoc. reflexivity.
Qed.

(** [main] announces what [diff] decides and stores the identifier
    [diff] returns. *)
Lemma main_diff (st : Web.St W) :
  let page := fst (Web.extract_tweets net (Web.X_USERNAME config) (Web.world st)) in
  let d := Web.diff page (Web.read_last_id st) in
  List.map Web.sent_text (Web.sends (Web.main net config st))
  = List.map Web.sent_text (Web.sends st)
    ++ List.map (Web.message_of (Web.X_USERNAME config)) (fst d)
  /\ Web.last_id_file (Web.main net config st)
     = match page with
       | [] => Web.last_id_file st
       | _ :: _ => snd d
       end.
Proof.
  cbv zeta. unfold Web.main, Web.diff.
  destruct (Web.extract_tweets net _ (Web.world st)) as [page w'].
  cbn [fst]. destruct page as [|newest r].
  - cbn. rewrite app_nil_r. auto.
  - destruct (Web.read_last_id st) as [seen|].
    + cbn [fst snd Web.write_last_id Web.sends Web.last_id_file].
      destruct (Web.scan_new (newest :: r) seen) as [|t ts] eqn:E.
      * cbn. rewrite app_nil_r. auto.
      * rewrite send_all_texts. auto.
    + cbn. rewrite app_nil_r. auto.
Qed.

End WebFacts.



(** C7. Idempotence: [diff] on the same page with the identifier returned by
    a first [diff] announces nothing. *)
Theorem diff_twice_nothing_new (page : list Web.tweet) (watermark : option str) :
  fst (Web.diff page (snd (Web.diff page watermark))) = [].
Proof.
  destruct page as [|t r]; [reflexivity|].
  destruct watermark as [w|]; cbn [Web.diff snd fst Web.scan_new];
    (destruct (decide (Web.id t = Web.id t)); [reflexivity|congruence]).
Qed.

(** ** Dictionaries *)

Section DictFacts.
Context {V : Type}.
Implicit Types (d : list (str * V)) (k : str) (v : V).

Lemma lookup_set_eq k v d : PyDict.lookup k (PyDict.set k v d) = Some v.
Proof.
  induction d as [|[k' v'] d IH]; cbn.
  - destruct (decide (k = k)); [reflexivity|congruence].
  - destruct (decide (k' = k)) as [->|Hne]; cbn.
    + destruct (decide (k = k)); [reflexivity|congruence].
    + destruct (decide (k' = k)); [congruence|exact IH].
Qed.

Lemma lookup_set_ne k k' v d :
  k <> k' -> PyDict.lookup k' (PyDict.set k v d) = PyDict.lookup k' d.
Proof.
  intros Hne. induction d as [|[k0 v0] d IH]; cbn.
  - destruct (decide (k = k')); [congruence|reflexivity].
  - destruct (decide (k0 = k)) as [->|Hne0]; cbn.
    + destruct (decide (k = k')); [congruence|reflexivity].
    + destruct (decide (k0 = k')); [reflexivity|exact IH].
Qed.

Lemma keys_set_in k v d :
  k ∈ PyDict.keys d -> PyDict.keys (PyDict.set k v d) = PyDict.keys d.
Proof.
  induction d as [|[k' v'] d IH]; cbn; intros Hin.
  - inversion Hin.
  - destruct (decide (k' = k)) as [->|Hne]; [reflexivity|].
    cbn. f_equal. apply IH. apply elem_of_cons in Hin as [->|Hin]; [congruence|exact Hin].
Qed.

Lemma keys_set k v d :
  forall k', k' ∈ PyDict.keys (PyDict.set k v d) <-> k' = k \/ k' ∈ PyDict.keys d.
Proof.
  intros k'. induction d as [|[k0 v0] d IH]; cbn.
  - rewrite list_elem_of_singleton. split; [auto|]. intros [H|H]; [exact H|inversion H].
  - destruct (decide (k0 = k)) as [->|Hne]; cbn.
    + rewrite elem_of_cons. tauto.
    + rewrite !elem_of_cons, IH. tauto.
Qed.

Lemma nodup_set k v d :
  NoDup (PyDict.keys d) -> NoDup (PyDict.keys (PyDict.set k v d)).
Proof.
  induction d as [|[k0 v0] d IH]; cbn; intros Hnd.
  - apply NoDup_singleton.
  - apply NoDup_cons in Hnd as [Hnotin Hnd].
    destruct (decide (k0 = k)) as [->|Hne]; cbn.
    + apply NoDup_cons. auto.
    + apply NoDup_cons. split; [|auto].
      intros Hin. apply keys_set in Hin as [->|Hin]; [congruence|auto].
Qed.

Lemma lookup_none_keys k d : PyDict.lookup k d = None <-> k ∉ PyDict.keys d.
Proof.
  induction d as [|[k0 v0] d IH]; cbn.
  - split; [intros _ H; inversion H|reflexivity].
  - rewrite not_elem_of_cons. destruct (decide (k0 = k)) as [->|Hne].
    + split; [discriminate|]. intros [H _]. congruence.
    + rewrite IH. split; [auto|tauto].
Qed.

(** A dict comprehension over a list of keys. *)
Lemma comprehension_from (f : str -> V) l acc :
  let d := fold_left (fun d kv => PyDict.set (fst kv) (snd kv) d)
             (List.map (fun a => (a, f a)) l) acc in
  (forall k, k ∈ PyDict.keys d <-> k ∈ PyDict.keys acc \/ k ∈ l)
  /\ (NoDup (PyDict.keys acc) -> NoDup (PyDict.keys d))
  /\ (forall k, PyDict.lookup k d =
                if decide (k ∈ l) then Some (f k) else PyDict.lookup k acc).
Proof.
  cbv zeta. revert acc. induction l as [|a l IH]; intros acc.
  - cbn [List.map fold_left]. split; [|split].
    + intros k. rewrite elem_of_nil. tauto.
    + auto.
    + intros k. destruct (decide (k ∈ [])) as [H|_]; [inversion H|reflexivity].
  - cbn [List.map fold_left fst snd].
    destruct (IH (PyDict.set a (f a) acc)) as (Hk & Hnd & Hl).
    split; [|split].
    + intros k. rewrite Hk, keys_set, elem_of_cons. tauto.
    + intros H. apply Hnd, nodup_set, H.
    + intros k. rewrite Hl.
      destruct (decide (k ∈ l)) as [Hin|Hnin].
      * destruct (decide (k ∈ a :: l)) as [_|Hn]; [reflexivity|].
        exfalso. apply Hn. right. exact Hin.
      * destruct (decide (a = k)) as [->|Hne].
        -- rewrite lookup_set_eq.
           destruct (decide (k ∈ k :: l)) as [_|Hn]; [reflexivity|].
           exfalso. apply Hn. left.
        -- rewrite lookup_set_ne by exact Hne.
           destruct (decide (k ∈ a :: l)) as [Hin|_]; [|reflexivity].
           apply elem_of_cons in Hin as [->|Hin]; [congruence|contradiction].
Qed.

Lemma comprehension (f : str -> V) l :
  let d := PyDict.of_pairs (List.map (fun a => (a, f a)) l) in
  (forall k, k ∈ PyDict.keys d <-> k ∈ l)
  /\ NoDup (PyDict.keys d)
  /\ (forall k, PyDict.lookup k d = if decide (k ∈ l) then Some (f k) else None).
Proof.
  cbv zeta. destruct (comprehension_from f l []) as (Hk & Hnd & Hl).
  split; [|split].
  - intros k. unfold PyDict.of_pairs. rewrite Hk. cbn. rewrite elem_of_nil. tauto.
  - apply Hnd. constructor.
  - exact Hl.
Qed.

End DictFacts.

(** ** The API tracker: sending and the loop body *)

Section TrackerFacts.
Context {W : Type} (net : XTracker.Network W) (config : XTracker.TrackerConfig).
Import XTracker.
Implicit Types (st : St W).

Lemma for_each_cons {A} (x : A) l (body : A -> M unit) st :
  for_each (x :: l) body st =
  match body x st with
  | (Ok _, st') => for_each l body st'
  | (Raise e, st') => (Raise e, st')
  end.
Proof. reflexivity. Qed.

Lemma for_each_app {A} (l1 l2 : list A) (body : A -> M unit) st :
  for_each (l1 ++ l2) body st =
  match for_each l1 body st with
  | (Ok _, st') => for_each l2 body st'
  | (Raise e, st') => (Raise e, st')
  end.
Proof.
  revert st. induction l1 as [|x l1 IH]; intros st; [reflexivity|].
  cbn [app]. rewrite !for_each_cons.
  destruct (body x st) as [[[]|e] st']; [apply IH|reflexivity].
Qed.

Lemma send_message_spec text st :
  exists w' ok,
    snd (send_message net text st) =
      {| st_state := st_state st; st_world := w';
         st_log := st_log st ++ [CallSend text ok];
         st_fs := st_fs st; st_seen := st_seen st |}
    /\ (fst (send_message net text st) = Ok tt <-> ok = true).
Proof.
  unfold send_message, request, bind, emit, raise.
  destruct (telegram_post net text (st_world st)) as [[status|e] w'].
  - destruct ((400 <=? status) && (status <? 600)).
    + exists w', false. cbn. split; [reflexivity|]. split; discriminate.
    + exists w', true. cbn. split; [reflexivity|]. split; reflexivity.
  - exists w', false. cbn. split; [reflexivity|]. split; discriminate.
Qed.

Lemma send_calls_app l1 l2 : send_calls (l1 ++ l2) = send_calls l1 ++ send_calls l2.
Proof. apply omap_app. Qed.

Lemma delivered_app l1 l2 : delivered (l1 ++ l2) = delivered l1 ++ delivered l2.
Proof. apply omap_app. Qed.

(** Sending a list of texts: the store is untouched, the calls made are a
    prefix of the list, and all of it when nothing raised. *)
Lemma sends_spec {A} (f : A -> str) (l : list A) st :
  let r := for_each l (fun x => send_message net (f x)) st in
  st_state (snd r) = st_state st /\ st_fs (snd r) = st_fs st
  /\ st_seen (snd r) = st_seen st
  /\ (exists k, send_calls (st_log (snd r))
                = send_calls (st_log st) ++ take k (List.map f l))
  /\ (fst r = Ok tt ->
      st_log (snd r) = st_log st ++ List.map (fun x => CallSend (f x) true) l).
Proof.
  cbv zeta. revert st. induction l as [|x l IH]; intros st.
  - cbn. rewrite !app_nil_r. repeat split. exists O. rewrite app_nil_r. reflexivity.
  - rewrite for_each_cons.
    destruct (send_message_spec (f x) st) as (w' & ok & Hst & Hok).
    destruct (send_message net (f x) st) as [[[]|e] st'] eqn:E;
      cbn [fst snd] in *; subst st'.
    + destruct (IH {| st_state := st_state st; st_world := w';
                      st_log := st_log st ++ [CallSend (f x) ok];
                      st_fs := st_fs st; st_seen := st_seen st |})
        as (H1 & H2 & H3 & (k & H4) & H5).
      cbn [st_state st_fs st_seen st_log] in *.
      repeat split; try assumption.
      * exists (S k). rewrite H4, send_calls_app. cbn. rewrite <- app_assoc.
        reflexivity.
      * intros Hr. rewrite (H5 Hr). assert (ok = true) as -> by (apply Hok; reflexivity).
        cbn. rewrite <- app_assoc. reflexivity.
    + cbn [st_state st_fs st_seen st_log]. repeat split.
      * exists 1%nat. rewrite send_calls_app. cbn. rewrite take_0. reflexivity.
      * discriminate.
Qed.

(** The loop body when both requests of the account succeed. *)
Lemma check_account_fetched username st uid w1 tweets w2 :
  get_user_id net username (st_world st) = (Ok uid, w1) ->
  tweets_request net uid
    (match dict_get username (st_state st) with
     | Some (c :: s) => Some (c :: s)
     | _ => None
     end) w1 = (Ok tweets, w2) ->
  check_account net username st =
  let param := match dict_get username (st_state st) with
               | Some (c :: s) => Some (c :: s)
               | _ => None
               end in
  let log' := st_log st ++ [CallGetUserId username; CallFetch uid param] in
  match tweets with
  | newest :: _ =>
      _notify net username tweets
        {| st_state := PyDict.set username (Some (tw_id newest)) (st_state st);
           st_world := w2; st_log := log';
           st_fs := st_fs st; st_seen := st_seen st |}
  | [] =>
      (Ok tt, {| st_state := st_state st; st_world := w2; st_log := log';
                 st_fs := st_fs st; st_seen := st_seen st |})
  end.
Proof.
  intros Hid Hfetch.
  unfold check_account, bind, x_get_user_id, fetch_latest_tweets, get_state,
    set_state, emit, request, bind, ret.
  cbn [st_world st_state st_log st_fs st_seen]. rewrite Hid.
  cbn [st_world st_state st_log st_fs st_seen]. rewrite Hfetch.
  cbn [st_world st_state st_log st_fs st_seen]. rewrite <- app_assoc.
  destruct tweets; reflexivity.
Qed.

(** Whatever happens, the loop body leaves the file system alone, keeps an
    identifier where there was one, and keeps the keys of known accounts. *)
Lemma check_account_frame username st :
  let st' := snd (check_account net username st) in
  st_fs st' = st_fs st /\ st_seen st' = st_seen st
  /\ (forall k, dict_get k (st_state st) <> None -> dict_get k (st_state st') <> None)
  /\ (username ∈ PyDict.keys (st_state st) ->
      PyDict.keys (st_state st') = PyDict.keys (st_state st)).
Proof.
  cbv zeta.
  destruct (get_user_id net username (st_world st)) as [[uid|e] w1] eqn:Hid.
  - destruct (tweets_request net uid
                (match dict_get username (st_state st) with
                 | Some (c :: s) => Some (c :: s)
                 | _ => None
                 end) w1) as [[tweets|e] w2] eqn:Hfetch.
    + rewrite (check_account_fetched _ _ _ _ _ _ Hid Hfetch). cbv zeta.
      destruct tweets as [|newest r]; [cbn; auto|].
      unfold _notify.
      match goal with |- context [for_each ?l ?b ?s] =>
        destruct (sends_spec (_format_message username) l s)
          as (H1 & H2 & H3 & _) end.
      rewrite H1, H2, H3. cbn [st_state st_fs st_seen].
      repeat split.
      * intros k Hk. unfold dict_get in *.
        destruct (decide (username = k)) as [->|Hne].
        -- rewrite lookup_set_eq. discriminate.
        -- rewrite lookup_set_ne by exact Hne. exact Hk.
      * apply keys_set_in.
    + unfold check_account, bind, x_get_user_id, fetch_latest_tweets, get_state,
        emit, request, bind, ret.
      cbn [st_world st_state st_log st_fs st_seen]. rewrite Hid.
      cbn [st_world st_state st_log st_fs st_seen]. rewrite Hfetch.
      cbn. auto.
  - unfold check_account, bind, x_get_user_id, emit, request, bind.
    cbn [st_world st_state st_log st_fs st_seen]. rewrite Hid. cbn. auto.
Qed.

End TrackerFacts.

(** ** The file system *)

Lemma node_at_insert fs p n q :
  p <> [] ->
  Fs.node_at (<[p := n]> fs) q = if decide (p = q) then Some n else Fs.node_at fs q.
Proof.
  intros Hp. destruct q as [|c q]; cbn.
  - destruct (decide (p = [])); [contradiction|reflexivity].
  - rewrite lookup_insert. destruct (decide (p = c :: q)); reflexivity.
Qed.

Lemma os_mkdir_ok p fs fs' :
  Fs.os_mkdir p fs = Ok fs' ->
  p <> [] /\ fs' = <[p := Dir]> fs /\ Fs.node_at fs p = None
  /\ Fs.is_dir fs (Fs.parent p) = true.
Proof.
  unfold Fs.os_mkdir, Fs.is_dir.
  destruct (Fs.node_at fs (Fs.parent p)) as [[|c]|] eqn:Hpar; try discriminate.
  destruct (Fs.node_at fs p) as [n|] eqn:Hp; [discriminate|].
  intros [= <-]. repeat split. intros ->. discriminate.
Qed.

Lemma only_dirs_added_refl p fs : only_dirs_added p fs fs.
Proof. intros q. left. reflexivity. Qed.

Lemma only_dirs_added_trans p fs1 fs2 fs3 :
  only_dirs_added p fs1 fs2 -> only_dirs_added p fs2 fs3 ->
  only_dirs_added p fs1 fs3.
Proof.
  intros H12 H23 q. destruct (H12 q) as [E|(S1 & E1 & E2)], (H23 q) as [F|(S2 & F1 & F2)].
  - left. congruence.
  - right. repeat split; congruence.
  - right. repeat split; congruence.
  - congruence.
Qed.

Lemma only_dirs_added_up c p fs fs' :
  only_dirs_added p fs fs' -> only_dirs_added (c :: p) fs fs'.
Proof.
  intros H q. destruct (H q) as [E|([k ->] & E1 & E2)]; [left; exact E|].
  right. repeat split; [exists (c :: k); reflexivity|assumption|assumption].
Qed.

Lemma only_dirs_added_is_dir p fs fs' q :
  only_dirs_added p fs fs' -> Fs.is_dir fs q = true -> Fs.is_dir fs' q = true.
Proof.
  intros H. unfold Fs.is_dir. destruct (H q) as [->|(_ & -> & ->)]; [auto|discriminate].
Qed.

Lemma os_mkdir_spec p fs fs' :
  Fs.os_mkdir p fs = Ok fs' ->
  Fs.is_dir fs' p = true /\ only_dirs_added p fs fs' /\ (fs_wf fs -> fs_wf fs').
Proof.
  intros (Hp & -> & Hnone & Hpar)%os_mkdir_ok.
  assert (Hadd : only_dirs_added p fs (<[p := Dir]> fs)).
  { intros q. rewrite node_at_insert by exact Hp.
    destruct (decide (p = q)) as [<-|]; [right|left]; auto. }
  split; [|split; [exact Hadd|]].
  - unfold Fs.is_dir. rewrite node_at_insert by exact Hp.
    destruct (decide (p = p)); [reflexivity|congruence].
  - intros Hwf q n Hq. apply (only_dirs_added_is_dir p fs); [exact Hadd|].
    rewrite lookup_insert in Hq. destruct (decide (p = q)) as [<-|Hne].
    + exact Hpar.
    + apply (Hwf q n). exact Hq.
Qed.

Lemma mkdir_exist_ok_spec p fs fs' :
  Fs.mkdir_exist_ok p fs = Ok fs' ->
  Fs.is_dir fs' p = true /\ only_dirs_added p fs fs' /\ (fs_wf fs -> fs_wf fs').
Proof.
  unfold Fs.mkdir_exist_ok.
  destruct (Fs.os_mkdir p fs) as [fs1|e] eqn:E.
  - intros [= <-]. apply os_mkdir_spec. exact E.
  - destruct e; try discriminate;
      (destruct (Fs.is_dir fs p) eqn:Hd; [|discriminate]);
      intros [= <-]; (split; [exact Hd|split; [apply only_dirs_added_refl|auto]]).
Qed.

Lemma mkdir_parents_spec p :
  forall fs fs',
    Fs.mkdir_parents p fs = Ok fs' ->
    Fs.is_dir fs' p = true /\ only_dirs_added p fs fs' /\ (fs_wf fs -> fs_wf fs').
Proof.
  induction p as [|c dir IH]; intros fs fs'; cbn [Fs.mkdir_parents].
  - destruct (Fs.os_mkdir [] fs) as [fs1|e] eqn:E.
    + intros [= <-]. apply os_mkdir_spec. exact E.
    + destruct e; try discriminate;
        (destruct (Fs.is_dir fs []) eqn:Hd; [|discriminate]);
        intros [= <-]; (split; [exact Hd|split; [apply only_dirs_added_refl|auto]]).
  - destruct (Fs.os_mkdir (c :: dir) fs) as [fs1|e] eqn:E.
    + intros [= <-]. apply os_mkdir_spec. exact E.
    + destruct e; try discriminate;
        try ((destruct (Fs.is_dir fs (c :: dir)) eqn:Hd; [|discriminate]);
             intros [= <-];
             (split; [exact Hd|split; [apply only_dirs_added_refl|auto]])).
      destruct (Fs.mkdir_parents dir fs) as [fs1|e] eqn:E1; [|discriminate].
      intros H2. destruct (IH _ _ E1) as (_ & Ha1 & Hw1).
      destruct (mkdir_exist_ok_spec _ _ _ H2) as (Hd & Ha2 & Hw2).
      split; [exact Hd|]. split; [|auto].
      eapply only_dirs_added_trans; [apply only_dirs_added_up|]; eassumption.
Qed.

(** In a well-formed file system the ancestors of a directory are
    directories. *)
Lemma ancestors_are_dirs fs p :
  fs_wf fs -> Fs.is_dir fs p = true ->
  forall d, d `suffix_of` p -> Fs.is_dir fs d = true.
Proof.
  intros Hwf. induction p as [|c dir IH]; intros Hp d [k Hk].
  - destruct k; [|discriminate]. cbn in Hk. subst d. reflexivity.
  - destruct k as [|c' k]; cbn in Hk.
    + subst d. exact Hp.
    + injection Hk as <- Hdir. apply IH; [|exists k; exact Hdir].
      unfold Fs.is_dir in Hp. cbn in Hp.
      destruct (fs !! (c :: dir)) as [n|] eqn:E; [|discriminate].
      apply (Hwf _ _ E).
Qed.


(** ** The dumped text is plain ASCII *)

Lemma ascii_text_app s t : ascii_text s -> ascii_text t -> ascii_text (s ++ t).
Proof. intros Hs Ht. apply Forall_app. auto. Qed.

Lemma hexdigit_ascii d : d < 16 -> 32 <= Json.hexdigit d /\ Json.hexdigit d <= 126.
Proof. unfold Json.hexdigit. intros Hd. destruct (N.ltb_spec d 10); lia. Qed.

Lemma u_escape_ascii n : ascii_text (Json.u_escape n).
Proof.
  unfold Json.u_escape, Json.fmt_04x, ascii_text.
  repeat (apply Forall_cons; split;
          [right; first [lia | apply hexdigit_ascii, N.mod_lt; lia]|]).
  constructor.
Qed.

Lemma escape_char_ascii c : ascii_text (Json.escape_char c).
Proof.
  unfold Json.escape_char.
  repeat (match goal with
          | |- context [if ?b =? ?k then _ else _] => destruct (N.eqb_spec b k)
          end;
          [repeat (apply Forall_cons; split; [right; lia|]); constructor|]).
  destruct (N.leb_spec 32 c), (N.leb_spec c 126); cbn [andb];
    try (apply Forall_cons; split; [right; lia|constructor]).
  all: destruct (c <? 65536); cbv zeta;
    try apply ascii_text_app; apply u_escape_ascii.
Qed.

Lemma encode_string_ascii s : ascii_text (Json.encode_basestring_ascii s).
Proof.
  unfold Json.encode_basestring_ascii.
  apply Forall_cons. split; [right; lia|].
  apply ascii_text_app; [|apply Forall_cons; split; [right; lia|constructor]].
  induction s as [|c s IH]; [constructor|].
  cbn [flat_map]. apply ascii_text_app; [apply escape_char_ascii|exact IH].
Qed.

Lemma encode_item_ascii kv : ascii_text (Json.encode_item kv).
Proof.
  unfold Json.encode_item.
  apply ascii_text_app; [apply encode_string_ascii|].
  apply ascii_text_app.
  - repeat (apply Forall_cons; split; [right; cbn; lia|]). constructor.
  - destruct (snd kv); [apply encode_string_ascii|].
    repeat (apply Forall_cons; split; [right; cbn; lia|]). constructor.
Qed.

Lemma dumps_ascii d : ascii_text (Json.dumps d).
Proof.
  destruct d as [|kv rest]; cbn [Json.dumps].
  - repeat (apply Forall_cons; split; [right; cbn; lia|]). constructor.
  - apply Forall_cons. split; [right; lia|].
    apply Forall_cons. split; [left; reflexivity|].
    do 2 (apply Forall_cons; split; [right; lia|]).
    apply ascii_text_app; [apply encode_item_ascii|].
    apply ascii_text_app.
    + induction rest as [|kv' rest IH]; [constructor|].
      cbn [Json.encode_more flat_map]. fold (Json.encode_more rest).
      apply Forall_cons. split; [right; lia|].
      apply Forall_cons. split; [left; reflexivity|].
      do 2 (apply Forall_cons; split; [right; lia|]).
      apply ascii_text_app; [apply encode_item_ascii|exact IH].
    + apply Forall_cons. split; [left; reflexivity|].
      apply Forall_cons. split; [right; lia|constructor].
Qed.

Lemma universal_newlines_ascii s : ascii_text s -> PyStr.universal_newlines s = s.
Proof.
  induction 1 as [|c s Hc _ IH]; [reflexivity|].
  cbn [PyStr.universal_newlines].
  destruct (N.eqb_spec c 13); [lia|]. rewrite IH. reflexivity.
Qed.

(** ** Saving and loading the state *)

Section StoreFacts.
Context {W : Type} (net : XTracker.Network W) (config : XTracker.TrackerConfig).
Import XTracker.
Implicit Types (st : St W).

Lemma open_w_ok p fs fs' :
  Fs.open_w p fs = Ok fs' ->
  p <> [] /\ fs' = <[p := File []]> fs /\ Fs.is_dir fs (Fs.parent p) = true.
Proof.
  unfold Fs.open_w, Fs.is_dir.
  destruct (Fs.node_at fs (Fs.parent p)) as [[|c]|] eqn:Hpar; try discriminate.
  destruct (Fs.node_at fs p) as [[|c]|] eqn:Hp; try discriminate;
    intros [= <-]; repeat split; intros ->; discriminate.
Qed.

(** A save that returns went through three observable steps: the
    directories, the truncated file, the full text. *)
Lemma persist_ok st st' :
  _persist_state config st = (Ok tt, st') ->
  exists fs1 fs2,
    Fs.mkdir_parents (Fs.parent (state_file config)) (st_fs st) = Ok fs1
    /\ Fs.open_w (state_file config) fs1 = Ok fs2
    /\ st' = {| st_state := st_state st; st_world := st_world st;
                st_log := st_log st;
                st_fs := Fs.flush (state_file config) (Json.dumps (st_state st)) fs2;
                st_seen := st_seen st ++
                  [fs1; fs2;
                   Fs.flush (state_file config) (Json.dumps (st_state st)) fs2] |}.
Proof.
  unfold _persist_state, bind, fs_step.
  destruct (Fs.mkdir_parents (Fs.parent (state_file config)) (st_fs st))
    as [fs1|e] eqn:E1; [|discriminate].
  cbn [st_fs st_state st_world st_log st_seen].
  destruct (Fs.open_w (state_file config) fs1) as [fs2|e] eqn:E2; [|discriminate].
  cbn [st_fs st_state st_world st_log st_seen].
  intros [= <-]. exists fs1, fs2. rewrite <- !app_assoc. auto.
Qed.

(** A save never changes the tracker object, the world or the log. *)
Lemma persist_frame st :
  let st' := snd (_persist_state config st) in
  st_state st' = st_state st /\ st_world st' = st_world st
  /\ st_log st' = st_log st.
Proof.
  cbv zeta. unfold _persist_state, bind, fs_step.
  destruct (Fs.mkdir_parents (Fs.parent (state_file config)) (st_fs st))
    as [fs1|e]; [|cbn; auto].
  cbn [st_fs st_state st_world st_log st_seen].
  destruct (Fs.open_w (state_file config) fs1) as [fs2|e]; cbn; auto.
Qed.

(** Loading a file system whose state file holds a dumped dictionary. *)
Lemma load_dumped fs d :
  state_file config <> [] ->
  NoDup (PyDict.keys d) -> state_text_ok d = true ->
  _load_state config (Fs.flush (state_file config) (Json.dumps d) fs)
  = Ok (PyDict.of_pairs
          (List.map (fun account => (account, dict_get account d))
             (accounts config))).
Proof.
  intros Hp Hnd Hok. unfold _load_state, Fs.exists_, Fs.read_text, Fs.flush.
  rewrite node_at_insert by exact Hp.
  destruct (decide (state_file config = state_file config)); [|congruence].
  rewrite universal_newlines_ascii by apply dumps_ascii.
  rewrite loads_dumps by assumption. reflexivity.
Qed.

End StoreFacts.

(** ** The cycle of the API tracker *)

Section CycleFacts.
Context {W : Type} (net : XTracker.Network W) (config : XTracker.TrackerConfig).
Import XTracker.
Implicit Types (st : St W).

Lemma for_each_frame (l : list str) st :
  let st' := snd (for_each l (check_account net) st) in
  st_fs st' = st_fs st /\ st_seen st' = st_seen st
  /\ (forall k, dict_get k (st_state st) <> None -> dict_get k (st_state st') <> None)
  /\ ((forall k, k ∈ l -> k ∈ PyDict.keys (st_state st)) ->
      PyDict.keys (st_state st') = PyDict.keys (st_state st)).
Proof.
  cbv zeta. revert st. induction l as [|x l IH]; intros st; [cbn; auto|].
  rewrite for_each_cons.
  destruct (check_account_frame net x st) as (H1 & H2 & H3 & H4).
  destruct (check_account net x st) as [[[]|e] st1]; cbn [snd] in *.
  - destruct (IH st1) as (I1 & I2 & I3 & I4).
    rewrite I1, I2, H1, H2. repeat split; auto.
    intros Hl. rewrite I4, H4; auto.
    + apply Hl. left.
    + intros k Hk. rewrite H4; [|apply Hl; left]. apply Hl. right. exact Hk.
  - repeat split; auto. intros Hl. apply H4, Hl. left.
Qed.

Lemma check_once_unfold st :
  check_once net config st =
  match for_each (accounts config) (check_account net) st with
  | (Ok _, st1) => _persist_state config st1
  | (Raise e, st1) => (Raise e, st1)
  end.
Proof. reflexivity. Qed.

End CycleFacts.

(** C1 (as amended). The cycle has no isolation between accounts: the first
    account whose fetch or notification raises ends [check_once] with that
    exception, in the state reached at that point, so later accounts are
    not contacted and the state file is not written in that cycle; the
    state is saved only when no account raised. *)
Theorem failure_aborts_cycle {W} (net : XTracker.Network W)
    (config : XTracker.TrackerConfig) (st st1 : XTracker.St W) :
  (forall pre x post e st2,
      XTracker.accounts config = pre ++ x :: post ->
      XTracker.for_each pre (XTracker.check_account net) st = (Ok tt, st1) ->
      XTracker.check_account net x st1 = (Raise e, st2) ->
      XTracker.check_once net config st = (Raise e, st2)
      /\ XTracker.st_fs st2 = XTracker.st_fs st
      /\ XTracker.st_seen st2 = XTracker.st_seen st)
  /\ (XTracker.for_each (XTracker.accounts config) (XTracker.check_account net) st
        = (Ok tt, st1) ->
      XTracker.check_once net config st = XTracker._persist_state config st1).
Proof.
  split.
  - intros pre x post e st2 Hacc Hpre Hx.
    rewrite check_once_unfold, Hacc, for_each_app, Hpre, for_each_cons, Hx.
    split; [reflexivity|].
    pose proof (for_each_frame net pre st) as (F1 & F2 & _).
    pose proof (check_account_frame net x st1) as (G1 & G2 & _).
    rewrite Hpre in F1, F2. rewrite Hx in G1, G2. cbn [snd] in *.
    split; congruence.
  - intros Hall. rewrite check_once_unfold, Hall. reflexivity.
Qed.

Lemma failure_aborts_cycle_witness :
  let config := Demo.cfg [lit "Y"; lit "X"; lit "Z"] in
  let st := Demo.tracker [(lit "Y", None); (lit "X", None); (lit "Z", None)] ∅ in
  exists st2,
    XTracker.check_once (Demo.net (lit "X") 200) config st = (Raise RuntimeError, st2)
    /\ XTracker.st_fs st2 = ∅
    /\ XTracker.st_seen st2 = [∅]
    /\ XTracker.send_calls (XTracker.st_log st2)
       = List.map (XTracker._format_message (lit "Y"))
           [Demo.tweet_ "101"; Demo.tweet_ "102"; Demo.tweet_ "103"].
Proof.
  cbv zeta.
  set (config := Demo.cfg [lit "Y"; lit "X"; lit "Z"]).
  set (st := Demo.tracker [(lit "Y", None); (lit "X", None); (lit "Z", None)] ∅).
  set (n := Demo.net (lit "X") 200).
  exists (snd (XTracker.check_account n (lit "X")
                 (snd (XTracker.for_each [lit "Y"] (XTracker.check_account n) st)))).
  destruct (failure_aborts_cycle n config st
              (snd (XTracker.for_each [lit "Y"] (XTracker.check_account n) st)))
    as [H _].
  destruct (H [lit "Y"] (lit "X") [lit "Z"] RuntimeError
              (snd (XTracker.check_account n (lit "X")
                 (snd (XTracker.for_each [lit "Y"] (XTracker.check_account n) st)))))
    as (H1 & H2 & H3); [reflexivity|vm_compute; reflexivity|vm_compute; reflexivity|].
  split; [exact H1|]. split; [exact H2|]. split; [exact H3|].
  vm_compute. reflexivity.
Defined.

(** C1, as stated, fails: X cannot be resolved, Y alone is fetched, announced
    and saved; with X before Y the cycle raises, nothing is sent for Y and
    nothing is saved. *)
Lemma isolation_counterexample :
  let n := Demo.net (lit "X") 200 in
  let fs0 : gmap (list str) node := ∅ in
  let alone := XTracker.check_once n (Demo.cfg [lit "Y"])
                 (Demo.tracker [(lit "Y", None)] fs0) in
  let both := XTracker.check_once n (Demo.cfg [lit "X"; lit "Y"])
                (Demo.tracker [(lit "X", None); (lit "Y", None)] fs0) in
  (fst alone = Ok tt
   /\ length (XTracker.delivered (XTracker.st_log (snd alone))) = 3%nat
   /\ Fs.read_text (XTracker.state_file (Demo.cfg [lit "Y"]))
        (XTracker.st_fs (snd alone))
      = Ok (Json.dumps [(lit "Y", Some (lit "103"))]))
  /\ fst both = Raise RuntimeError
  /\ XTracker.send_calls (XTracker.st_log (snd both)) = []
  /\ XTracker.st_log (snd both) = [XTracker.CallGetUserId (lit "X")]
  /\ XTracker.st_fs (snd both) = fs0.
Proof. vm_compute. repeat split. Qed.


(** C2 (as amended). A save first creates the missing parent directories
    and then rewrites the state file in place: when it returns, every
    ancestor directory exists and the file holds the full snapshot; on the
    way the file is observable truncated to the empty text (there is no
    temporary file and no rename). *)
Theorem save_rewrites_in_place {W} (config : XTracker.TrackerConfig)
    (st st' : XTracker.St W) :
  fs_wf (XTracker.st_fs st) ->
  XTracker._persist_state config st = (Ok tt, st') ->
  (forall d, d `suffix_of` Fs.parent (XTracker.state_file config) ->
             Fs.is_dir (XTracker.st_fs st') d = true)
  /\ Fs.read_text (XTracker.state_file config) (XTracker.st_fs st')
     = Ok (Json.dumps (XTracker.st_state st))
  /\ exists fs1 fs2,
       XTracker.st_seen st' = XTracker.st_seen st ++ [fs1; fs2; XTracker.st_fs st']
       /\ only_dirs_added (Fs.parent (XTracker.state_file config))
            (XTracker.st_fs st) fs1
       /\ Fs.node_at fs2 (XTracker.state_file config) = Some (File []).
Proof.
  intros Hwf (fs1 & fs2 & E1 & E2 & ->)%persist_ok.
  destruct (mkdir_parents_spec _ _ _ E1) as (Hd1 & Ha1 & Hw1).
  destruct (open_w_ok _ _ _ E2) as (Hp & -> & _).
  cbn [XTracker.st_fs XTracker.st_seen XTracker.st_state]. unfold Fs.flush.
  split; [|split].
  - intros d Hd. unfold Fs.is_dir. rewrite !node_at_insert by exact Hp.
    destruct (decide (XTracker.state_file config = d)) as [<-|Hne].
    + exfalso. destruct Hd as [k Hk]. destruct (XTracker.state_file config) as [|c r].
      * congruence.
      * cbn in Hk. apply (f_equal length) in Hk. rewrite length_app in Hk.
        cbn in Hk. lia.
    + apply (ancestors_are_dirs fs1 _ (Hw1 Hwf) Hd1 d Hd).
  - unfold Fs.read_text. rewrite node_at_insert by exact Hp.
    destruct (decide (XTracker.state_file config = XTracker.state_file config));
      [|congruence].
    rewrite universal_newlines_ascii by apply dumps_ascii. reflexivity.
  - exists fs1, (<[XTracker.state_file config := File []]> fs1).
    split; [reflexivity|]. split; [exact Ha1|].
    rewrite node_at_insert by exact Hp.
    destruct (decide (XTracker.state_file config = XTracker.state_file config));
      [reflexivity|congruence].
Qed.

Lemma fs_wf_empty : fs_wf ∅.
Proof. intros p n H. rewrite lookup_empty in H. discriminate. Qed.

Lemma save_rewrites_in_place_witness :
  let config := Demo.cfg [lit "acct1"; lit "acct2"] in
  let st := Demo.tracker Demo.ex_state ∅ in
  let st' := snd (XTracker._persist_state config st) in
  Fs.is_dir (XTracker.st_fs st') [lit "data"] = true
  /\ Fs.read_text (XTracker.state_file config) (XTracker.st_fs st')
     = Ok (Json.dumps Demo.ex_state)
  /\ length (XTracker.st_seen st') = 4%nat.
Proof.
  cbv zeta.
  destruct (save_rewrites_in_place (Demo.cfg [lit "acct1"; lit "acct2"])
              (Demo.tracker Demo.ex_state ∅)
              (snd (XTracker._persist_state (Demo.cfg [lit "acct1"; lit "acct2"])
                      (Demo.tracker Demo.ex_state ∅))))
    as (H1 & H2 & fs1 & fs2 & H3 & _); [apply fs_wf_empty|vm_compute; reflexivity|].
  split; [apply H1; exists []; reflexivity|]. split; [exact H2|].
  rewrite H3, length_app. reflexivity.
Defined.

(** C2, as stated, fails: while the snapshot of the example is being saved,
    the state file is observable empty, which is neither what was there
    before (nothing) nor the snapshot, and does not parse. *)
Lemma save_not_atomic :
  let config := Demo.cfg [lit "acct1"; lit "acct2"] in
  let st := Demo.tracker Demo.ex_state ∅ in
  fst (XTracker._persist_state config st) = Ok tt
  /\ ~ atomic_save config st (snd (XTracker._persist_state config st))
  /\ Json.loads [] = None.
Proof.
  cbv zeta. split; [vm_compute; reflexivity|]. split; [|reflexivity].
  intros Hat.
  set (config := Demo.cfg [lit "acct1"; lit "acct2"]) in *.
  set (st := Demo.tracker Demo.ex_state ∅) in *.
  destruct (XTracker._persist_state config st) as [r st'] eqn:E.
  assert (Hr : r = Ok tt) by (apply (f_equal fst) in E; vm_compute in E; congruence).
  subst r. apply persist_ok in E as (fs1 & fs2 & E1 & E2 & ->).
  destruct (open_w_ok _ _ _ E2) as (Hp & -> & _).
  specialize (Hat (<[XTracker.state_file config := File []]> fs1)).
  cbn [XTracker.st_seen snd] in Hat.
  rewrite drop_app_length in Hat.
  destruct Hat as [Hat|Hat].
  - right. left.
  - rewrite node_at_insert in Hat by exact Hp.
    destruct (decide (XTracker.state_file config = XTracker.state_file config));
      [|congruence].
    vm_compute in Hat. discriminate.
  - rewrite node_at_insert in Hat by exact Hp.
    destruct (decide (XTracker.state_file config = XTracker.state_file config));
      [|congruence].
    vm_compute in Hat. discriminate.
Qed.

(** ** The stored identifier of the web tracker *)

Section WebStore.
Context {W : Type} (net : Web.Network W) (config : Web.Config).

Lemma main_stores_newest (st : Web.St W) newest rest w' :
  Web.extract_tweets net (Web.X_USERNAME config) (Web.world st)
    = (newest :: rest, w') ->
  Web.last_id_file (Web.main net config st) = Some (Web.id newest).
Proof.
  intros E. destruct (main_diff net config st) as [_ H].
  rewrite H, E. cbn [fst]. unfold Web.diff.
  destruct (Web.read_last_id st); reflexivity.
Qed.

Lemma main_empty_page (st : Web.St W) w' :
  Web.extract_tweets net (Web.X_USERNAME config) (Web.world st) = ([], w') ->
  Web.main net config st
  = {| Web.last_id_file := Web.last_id_file st; Web.world := w';
       Web.sends := Web.sends st |}.
Proof. intros E. unfold Web.main. rewrite E. reflexivity. Qed.

Lemma read_stored (st : Web.St W) i :
  Web.last_id_file st = Some i -> WebRuns.kept_by_file i ->
  Web.read_last_id st = Some i.
Proof.
  intros Hf [Hs Hne]. unfold Web.read_last_id. rewrite Hf, Hs.
  destruct i; [congruence|reflexivity].
Qed.

Lemma main_keeps_identifier (st : Web.St W) :
  (forall u w t, t ∈ fst (Web.extract_tweets net u w) ->
                 WebRuns.kept_by_file (Web.id t)) ->
  Web.read_last_id st <> None ->
  Web.read_last_id (Web.main net config st) <> None.
Proof.
  intros Hids Hst.
  destruct (Web.extract_tweets net (Web.X_USERNAME config) (Web.world st))
    as [[|newest rest] w'] eqn:E.
  - rewrite (main_empty_page st w' E). exact Hst.
  - rewrite (read_stored _ (Web.id newest)); [discriminate| |].
    + eapply main_stores_newest, E.
    + apply (Hids (Web.X_USERNAME config) (Web.world st)). rewrite E. left.
Qed.

Lemma main_n_keeps_identifier n (st : Web.St W) :
  (forall u w t, t ∈ fst (Web.extract_tweets net u w) ->
                 WebRuns.kept_by_file (Web.id t)) ->
  Web.read_last_id st <> None ->
  Web.read_last_id (WebRuns.main_n net config n st) <> None.
Proof.
  intros Hids. revert st. induction n as [|n IH]; intros st Hst; [exact Hst|].
  cbn [WebRuns.main_n]. apply IH, main_keeps_identifier; assumption.
Qed.

(** A second run on the same page announces nothing. *)
Lemma main_twice_silent (st : Web.St W) page w' w'' :
  Web.extract_tweets net (Web.X_USERNAME config) (Web.world st) = (page, w') ->
  Web.extract_tweets net (Web.X_USERNAME config)
    (Web.world (Web.main net config st)) = (page, w'') ->
  (forall t, t ∈ page -> WebRuns.kept_by_file (Web.id t)) ->
  List.map Web.sent_text (Web.sends (Web.main net config (Web.main net config st)))
  = List.map Web.sent_text (Web.sends (Web.main net config st)).
Proof.
  intros E1 E2 Hids.
  destruct (main_diff net config (Web.main net config st)) as [H _].
  rewrite H, E2. cbn [fst]. destruct page as [|newest rest].
  - cbn. apply app_nil_r.
  - rewrite (read_stored _ (Web.id newest)).
    + cbn [Web.diff fst Web.scan_new].
      destruct (decide (Web.id newest = Web.id newest)); [|congruence].
      cbn. apply app_nil_r.
    + eapply main_stores_newest, E1.
    + apply Hids. left.
Qed.

End WebStore.











(** C5. First run on the page c, b, a (newest first) with no stored
    identifier: the web tracker sends nothing and stores the identifier of
    c (silent seeding); the API tracker fetches without [since_id], sets the
    account to the identifier of c and, when every send returns, has
    announced a, b, c in that order. *)
Theorem first_run_policy :
  (forall W (net : Web.Network W) config (st : Web.St W) c b a w',
      Web.read_last_id st = None ->
      Web.extract_tweets net (Web.X_USERNAME config) (Web.world st)
        = ([c; b; a], w') ->
      Web.sends (Web.main net config st) = Web.sends st
      /\ Web.last_id_file (Web.main net config st) = Some (Web.id c))
  /\ (forall W (net : XTracker.Network W) username (st : XTracker.St W)
             uid w1 c b a w2,
         dict_get username (XTracker.st_state st) = None ->
         XTracker.get_user_id net username (XTracker.st_world st) = (Ok uid, w1) ->
         XTracker.tweets_request net uid None w1 = (Ok [c; b; a], w2) ->
         let r := XTracker.check_account net username st in
         dict_get username (XTracker.st_state (snd r)) = Some (XTracker.tw_id c)
         /\ (fst r = Ok tt ->
             XTracker.st_log (snd r) =
             XTracker.st_log st ++
               [XTracker.CallGetUserId username; XTracker.CallFetch uid None;
                XTracker.CallSend (XTracker._format_message username a) true;
                XTracker.CallSend (XTracker._format_message username b) true;
                XTracker.CallSend (XTracker._format_message username c) true])).
Proof.
  split.
  - intros W net config st c b a w' Hnone E.
    unfold Web.main. rewrite Hnone, E. cbn. auto.
  - intros W net username st uid w1 c b a w2 Hnone Hid Hfetch. cbv zeta.
    assert (Hfetch' :
      XTracker.tweets_request net uid
        (match dict_get username (XTracker.st_state st) with
         | Some (c0 :: s) => Some (c0 :: s)
         | _ => None
         end) w1 = (Ok [c; b; a], w2)) by (rewrite Hnone; exact Hfetch).
    rewrite (check_account_fetched net username st uid w1 _ w2 Hid Hfetch').
    cbv zeta. rewrite Hnone. unfold XTracker._notify.
    match goal with |- context [XTracker.for_each ?l ?f ?s] =>
      destruct (sends_spec net (XTracker._format_message username) l s)
        as (H1 & _ & _ & _ & H5) end.
    split.
    + rewrite H1. cbn [XTracker.st_state]. unfold dict_get.
      rewrite lookup_set_eq. reflexivity.
    + intros Hr. rewrite (H5 Hr). cbn [XTracker.st_log].
      rewrite <- app_assoc. reflexivity.
Qed.

Lemma first_run_policy_witness :
  let page := [WebRuns.tw "3"; WebRuns.tw "2"; WebRuns.tw "1"] in
  let net := WebRuns.steady_net page (Web.Response 200) in
  let st : Web.St unit :=
    {| Web.last_id_file := None; Web.world := tt; Web.sends := [] |} in
  let r := XTracker.check_account (Demo.net (lit "X") 200) (lit "Y")
             (Demo.tracker [(lit "Y", None)] ∅) in
  (Web.sends (Web.main net WebRuns.cfg st) = []
   /\ Web.last_id_file (Web.main net WebRuns.cfg st) = Some (lit "3"))
  /\ dict_get (lit "Y") (XTracker.st_state (snd r)) = Some (lit "103")
  /\ XTracker.delivered (XTracker.st_log (snd r))
     = [XTracker._format_message (lit "Y") (Demo.tweet_ "101");
        XTracker._format_message (lit "Y") (Demo.tweet_ "102");
        XTracker._format_message (lit "Y") (Demo.tweet_ "103")].
Proof.
  cbv zeta. destruct first_run_policy as (H1 & H2). split.
  - apply (H1 unit (WebRuns.steady_net
                      [WebRuns.tw "3"; WebRuns.tw "2"; WebRuns.tw "1"]
                      (Web.Response 200)) WebRuns.cfg
             {| Web.last_id_file := None; Web.world := tt; Web.sends := [] |}
             (WebRuns.tw "3") (WebRuns.tw "2") (WebRuns.tw "1") tt);
      reflexivity.
  - destruct (H2 unit (Demo.net (lit "X") 200) (lit "Y")
                (Demo.tracker [(lit "Y", None)] ∅) (lit "id-Y") tt
                (Demo.tweet_ "103") (Demo.tweet_ "102") (Demo.tweet_ "101") tt
                eq_refl eq_refl eq_refl) as (Ha & Hb).
    split; [exact Ha|]. rewrite Hb by (vm_compute; reflexivity). reflexivity.
Defined.

(** C6. Order of notifications. [_notify] hands the tweets to the notifier
    oldest first, one call each: the calls made are always a prefix of the
    reversed page, and all of it, each delivered, when no send raised; for
    the page c, b, a that is a, b, c. The web tracker, with a stored
    identifier that no item of the page c, b, a carries, sends a, b, c, one
    call each. *)
Theorem notifications_oldest_first :
  (forall W (net : XTracker.Network W) username tweets (st : XTracker.St W),
      let r := XTracker._notify net username tweets st in
      (exists k,
          XTracker.send_calls (XTracker.st_log (snd r)) =
          XTracker.send_calls (XTracker.st_log st)
            ++ take k (List.map (XTracker._format_message username) (rev tweets)))
      /\ (fst r = Ok tt ->
          XTracker.st_log (snd r) =
          XTracker.st_log st
            ++ List.map (fun tw =>
                 XTracker.CallSend (XTracker._format_message username tw) true)
                 (rev tweets)))
  /\ (forall W (net : XTracker.Network W) username c b a (st : XTracker.St W),
         let r := XTracker._notify net username [c; b; a] st in
         fst r = Ok tt ->
         XTracker.send_calls (XTracker.st_log (snd r)) =
         XTracker.send_calls (XTracker.st_log st)
           ++ [XTracker._format_message username a;
               XTracker._format_message username b;
               XTracker._format_message username c]
         /\ XTracker.delivered (XTracker.st_log (snd r)) =
            XTracker.delivered (XTracker.st_log st)
              ++ [XTracker._format_message username a;
                  XTracker._format_message username b;
                  XTracker._format_message username c])
  /\ (forall W (net : Web.Network W) config (st : Web.St W) seen c b a w',
         Web.read_last_id st = Some seen ->
         Web.extract_tweets net (Web.X_USERNAME config) (Web.world st)
           = ([c; b; a], w') ->
         Web.id c <> seen -> Web.id b <> seen -> Web.id a <> seen ->
         List.map Web.sent_text (Web.sends (Web.main net config st)) =
         List.map Web.sent_text (Web.sends st)
           ++ [Web.message_of (Web.X_USERNAME config) a;
               Web.message_of (Web.X_USERNAME config) b;
               Web.message_of (Web.X_USERNAME config) c]).
Proof.
  split; [|split].
  - intros W net username tweets st. cbv zeta. unfold XTracker._notify.
    destruct (sends_spec net (XTracker._format_message username) (rev tweets) st)
      as (_ & _ & _ & Hk & Hall).
    split; assumption.
  - intros W net username c b a st. cbv zeta. unfold XTracker._notify.
    destruct (sends_spec net (XTracker._format_message username) (rev [c; b; a]) st)
      as (_ & _ & _ & _ & Hall).
    intros Hr. rewrite (Hall Hr), send_calls_app, delivered_app. split; reflexivity.
  - intros W net config st seen c b a w' Hseen E Hc Hb Ha.
    destruct (main_diff net config st) as [H _]. rewrite H, E, Hseen.
    cbn [fst Web.diff Web.scan_new].
    destruct (decide (Web.id c = seen)); [contradiction|].
    destruct (decide (Web.id b = seen)); [contradiction|].
    destruct (decide (Web.id a = seen)); [contradiction|].
    reflexivity.
Qed.

Lemma notifications_oldest_first_witness :
  let page := [WebRuns.tw "3"; WebRuns.tw "2"; WebRuns.tw "1"] in
  let net := WebRuns.steady_net page Web.RequestFailed in
  let st : Web.St unit :=
    {| Web.last_id_file := Some (lit "0"); Web.world := tt; Web.sends := [] |} in
  let r := XTracker._notify (Demo.net (lit "X") 200) (lit "Y")
             [Demo.tweet_ "103"; Demo.tweet_ "102"; Demo.tweet_ "101"]
             (Demo.tracker [(lit "Y", None)] ∅) in
  XTracker.delivered (XTracker.st_log (snd r))
  = [XTracker._format_message (lit "Y") (Demo.tweet_ "101");
     XTracker._format_message (lit "Y") (Demo.tweet_ "102");
     XTracker._format_message (lit "Y") (Demo.tweet_ "103")]
  /\ List.map Web.sent_text (Web.sends (Web.main net WebRuns.cfg st))
     = [Web.message_of (lit "u") (WebRuns.tw "1");
        Web.message_of (lit "u") (WebRuns.tw "2");
        Web.message_of (lit "u") (WebRuns.tw "3")].
Proof.
  cbv zeta. destruct notifications_oldest_first as (_ & H2 & H3). split.
  - apply (H2 unit (Demo.net (lit "X") 200) (lit "Y")
             (Demo.tweet_ "103") (Demo.tweet_ "102") (Demo.tweet_ "101")
             (Demo.tracker [(lit "Y", None)] ∅)).
    vm_compute. reflexivity.
  - apply (H3 unit (WebRuns.steady_net
                      [WebRuns.tw "3"; WebRuns.tw "2"; WebRuns.tw "1"]
                      Web.RequestFailed) WebRuns.cfg
             {| Web.last_id_file := Some (lit "0"); Web.world := tt;
                Web.sends := [] |}
             (lit "0") (WebRuns.tw "3") (WebRuns.tw "2") (WebRuns.tw "1") tt);
      (reflexivity || discriminate).
Defined.

(** ** Failed sends of the web tracker *)

(** C9 (as amended). [send_to_telegram] records a failed POST (an exception
    of the request or a status other than 200) and returns; [main] then
    stores the newest fetched identifier whatever the sends did. A later run
    that finds the stored identifier in its page announces only the tweets
    ahead of it, so the tweets behind it, among them those whose send
    failed, are not announced again. *)
Theorem failed_sends_not_retried {W} (net : Web.Network W) (config : Web.Config) :
  (forall (st : Web.St W) message,
      exists w' ok,
        Web.send_to_telegram net message st =
          {| Web.last_id_file := Web.last_id_file st; Web.world := w';
             Web.sends := Web.sends st
                            ++ [{| Web.sent_text := message; Web.arrived := ok |}] |}
        /\ (ok = true <->
            fst (Web.post net message (Web.world st)) = Web.Response 200))
  /\ (forall (st : Web.St W) newest rest w',
         Web.extract_tweets net (Web.X_USERNAME config) (Web.world st)
           = (newest :: rest, w') ->
         Web.last_id_file (Web.main net config st) = Some (Web.id newest)
         /\ (WebRuns.kept_by_file (Web.id newest) ->
             Web.read_last_id (Web.main net config st) = Some (Web.id newest)))
  /\ (forall (st : Web.St W) pre b post w',
         Web.read_last_id st = Some (Web.id b) ->
         Web.extract_tweets net (Web.X_USERNAME config) (Web.world st)
           = (pre ++ b :: post, w') ->
         Forall (fun t => Web.id t <> Web.id b) pre ->
         List.map Web.sent_text (Web.sends (Web.main net config st)) =
         List.map Web.sent_text (Web.sends st)
           ++ List.map (Web.message_of (Web.X_USERNAME config)) (rev pre)).
Proof.
  split; [|split].
  - intros st message. unfold Web.send_to_telegram.
    destruct (Web.post net message (Web.world st)) as [[status|] w'];
      eexists w', _; (split; [reflexivity|]); cbn [fst].
    + destruct (N.eqb_spec status 200) as [->|Hne]; split; try reflexivity;
        try discriminate. intros [= ?]. contradiction.
    + split; discriminate.
  - intros st newest rest w' E.
    pose proof (main_stores_newest net config st newest rest w' E) as Hf.
    split; [exact Hf|]. intros Hk. apply read_stored; assumption.
  - intros st pre b post w' Hseen E Hpre.
    destruct (main_diff net config st) as [H _]. rewrite H, E, Hseen.
    cbn [fst]. f_equal. f_equal.
    assert (Hscan : Web.scan_new (pre ++ b :: post) (Web.id b) = pre).
    { clear -Hpre. induction Hpre as [|t pre Ht _ IH]; cbn.
      - destruct (decide (Web.id b = Web.id b)); [reflexivity|congruence].
      - destruct (decide (Web.id t = Web.id b)); [contradiction|].
        rewrite IH. reflexivity. }
    unfold Web.diff. destruct (pre ++ b :: post) eqn:Epage.
    + destruct pre; discriminate.
    + cbn [fst]. rewrite Hscan. reflexivity.
Qed.

Lemma failed_sends_not_retried_witness :
  let p1 := [WebRuns.tw "3"; WebRuns.tw "2"; WebRuns.tw "1"] in
  let p2 := [WebRuns.tw "4"; WebRuns.tw "3"; WebRuns.tw "2"; WebRuns.tw "1"] in
  let net := WebRuns.pages_net Web.RequestFailed in
  let st1 := Web.main net WebRuns.cfg (WebRuns.start (Some (lit "0")) [p1; p2]) in
  List.map Web.arrived (Web.sends st1) = [false; false; false]
  /\ Web.read_last_id st1 = Some (lit "3")
  /\ List.map Web.sent_text (Web.sends (Web.main net WebRuns.cfg st1))
     = List.map Web.sent_text (Web.sends st1)
       ++ [Web.message_of (lit "u") (WebRuns.tw "4")].
Proof.
  cbv zeta.
  destruct (failed_sends_not_retried (WebRuns.pages_net Web.RequestFailed)
              WebRuns.cfg) as (_ & H2 & H3).
  split; [reflexivity|]. split.
  - apply (H2 (WebRuns.start (Some (lit "0"))
                 [[WebRuns.tw "3"; WebRuns.tw "2"; WebRuns.tw "1"];
                  [WebRuns.tw "4"; WebRuns.tw "3"; WebRuns.tw "2"; WebRuns.tw "1"]])
             (WebRuns.tw "3") [WebRuns.tw "2"; WebRuns.tw "1"]
             [[WebRuns.tw "4"; WebRuns.tw "3"; WebRuns.tw "2"; WebRuns.tw "1"]]
             eq_refl).
    split; [reflexivity|discriminate].
  - apply (H3 _ [WebRuns.tw "4"] (WebRuns.tw "3")
             [WebRuns.tw "2"; WebRuns.tw "1"] []); [reflexivity|reflexivity|].
    apply Forall_cons. split; [discriminate|constructor].
Defined.

(** C9, as stated, fails for "never announced again": the sends of 1 and 2
    fail and 2 is stored; when the next page is 1 alone (2 is gone) the
    stored identifier is not found and 1 is announced again. *)
Lemma failed_send_announced_again :
  let net := WebRuns.pages_net Web.RequestFailed in
  let st0 := WebRuns.start (Some (lit "0"))
               [[WebRuns.tw "2"; WebRuns.tw "1"]; [WebRuns.tw "1"]] in
  let st1 := Web.main net WebRuns.cfg st0 in
  let st2 := Web.main net WebRuns.cfg st1 in
  Web.sends st1
  = [{| Web.sent_text := Web.message_of (lit "u") (WebRuns.tw "1");
        Web.arrived := false |};
     {| Web.sent_text := Web.message_of (lit "u") (WebRuns.tw "2");
        Web.arrived := false |}]
  /\ Web.read_last_id st1 = Some (lit "2")
  /\ Web.sends st2
     = Web.sends st1
       ++ [{| Web.sent_text := Web.message_of (lit "u") (WebRuns.tw "1");
              Web.arrived := false |}].
Proof. cbv zeta. repeat split. Qed.

(** ** The state file of the API tracker *)

(** Why text is asked not to split a surrogate pair: the two code points
    U+D83D and U+DE00 are dumped as two escapes and read back as the single
    code point U+1F600. *)
Example split_pair_read_as_one :
  Json.loads (Json.dumps [(lit "a", Some [55357; 56832])])
  = Some [(lit "a", Some [128512])].
Proof. reflexivity. Qed.

(** C8. Round trip: when the state of the tracker (one entry per configured
    account, handles and identifiers being text) has been saved, loading
    gives the same mapping back. *)
Theorem state_round_trip {W} (config : XTracker.TrackerConfig)
    (st st' : XTracker.St W) :
  NoDup (PyDict.keys (XTracker.st_state st)) ->
  (forall k, k ∈ PyDict.keys (XTracker.st_state st)
             <-> k ∈ XTracker.accounts config) ->
  state_text_ok (XTracker.st_state st) = true ->
  XTracker._persist_state config st = (Ok tt, st') ->
  exists loaded,
    XTracker._load_state config (XTracker.st_fs st') = Ok loaded
    /\ NoDup (PyDict.keys loaded)
    /\ (forall k, k ∈ PyDict.keys loaded <-> k ∈ PyDict.keys (XTracker.st_state st))
    /\ (forall k, PyDict.lookup k loaded = PyDict.lookup k (XTracker.st_state st)).
Proof.
  intros Hnd Hkeys Hok (fs1 & fs2 & E1 & E2 & ->)%persist_ok.
  destruct (open_w_ok _ _ _ E2) as (Hp & _ & _).
  cbn [XTracker.st_fs]. rewrite load_dumped by assumption.
  eexists. split; [reflexivity|].
  destruct (comprehension (fun a => dict_get a (XTracker.st_state st))
              (XTracker.accounts config)) as (Hk & Hn & Hl).
  split; [exact Hn|]. split.
  - intros k. rewrite Hk, Hkeys. reflexivity.
  - intros k. rewrite Hl. destruct (decide (k ∈ XTracker.accounts config)) as [Hin|Hnin].
    + apply Hkeys in Hin. unfold dict_get.
      destruct (PyDict.lookup k (XTracker.st_state st)) as [v|] eqn:E; [reflexivity|].
      apply lookup_none_keys in E. contradiction.
    + symmetry. apply lookup_none_keys. rewrite Hkeys. exact Hnin.
Qed.

Lemma example_keys_distinct : NoDup (PyDict.keys Demo.ex_state).
Proof.
  repeat (apply NoDup_cons; split); [| |apply NoDup_nil_2];
    intros Hin;
    repeat (apply elem_of_cons in Hin as [Hin|Hin]; [discriminate|]);
    inversion Hin.
Qed.

Lemma state_round_trip_witness :
  let config := Demo.cfg [lit "acct1"; lit "acct2"] in
  let st := Demo.tracker Demo.ex_state ∅ in
  exists loaded,
    XTracker._load_state config
      (XTracker.st_fs (snd (XTracker._persist_state config st))) = Ok loaded
    /\ PyDict.lookup (lit "acct1") loaded = Some (Some (lit "100"))
    /\ PyDict.lookup (lit "acct2") loaded = Some None.
Proof.
  cbv zeta.
  destruct (state_round_trip (Demo.cfg [lit "acct1"; lit "acct2"])
              (Demo.tracker Demo.ex_state ∅)
              (snd (XTracker._persist_state (Demo.cfg [lit "acct1"; lit "acct2"])
                      (Demo.tracker Demo.ex_state ∅))))
    as (loaded & H1 & _ & _ & H4).
  - exact example_keys_distinct.
  - intros k. reflexivity.
  - reflexivity.
  - vm_compute. reflexivity.
  - exists loaded. split; [exact H1|]. rewrite !H4. split; reflexivity.
Defined.

(** C10. The keys of the in-memory state are the configured accounts after
    construction and after every [check_once]. Loading keeps no entry for an
    account that is not configured, and the save at the end of the next
    cycle writes a file without it. *)
Theorem state_keys_follow_config {W} (net : XTracker.Network W)
    (config : XTracker.TrackerConfig) :
  (forall w fs (st : XTracker.St W),
      XTracker.init config w fs = Ok st ->
      NoDup (PyDict.keys (XTracker.st_state st))
      /\ (forall k, k ∈ PyDict.keys (XTracker.st_state st)
                    <-> k ∈ XTracker.accounts config))
  /\ (forall st : XTracker.St W,
         (forall k, k ∈ XTracker.accounts config ->
                    k ∈ PyDict.keys (XTracker.st_state st)) ->
         PyDict.keys (XTracker.st_state (snd (XTracker.check_once net config st)))
         = PyDict.keys (XTracker.st_state st))
  /\ (forall n (st : XTracker.St W),
         (forall k, k ∈ XTracker.accounts config ->
                    k ∈ PyDict.keys (XTracker.st_state st)) ->
         PyDict.keys (XTracker.st_state (snd (XTracker.run net config n st)))
         = PyDict.keys (XTracker.st_state st))
  /\ (forall w fs (st st' : XTracker.St W) k,
         XTracker.init config w fs = Ok st ->
         k ∉ XTracker.accounts config ->
         XTracker.check_once net config st = (Ok tt, st') ->
         (k ∉ PyDict.keys (XTracker.st_state st'))
         /\ Fs.read_text (XTracker.state_file config) (XTracker.st_fs st')
            = Ok (Json.dumps (XTracker.st_state st'))).
Proof.
  assert (Hinit : forall w fs (st : XTracker.St W),
             XTracker.init config w fs = Ok st ->
             NoDup (PyDict.keys (XTracker.st_state st))
             /\ (forall k, k ∈ PyDict.keys (XTracker.st_state st)
                           <-> k ∈ XTracker.accounts config)).
  { intros w fs st. unfold XTracker.init, XTracker._load_state.
    destruct (Fs.exists_ fs (XTracker.state_file config)).
    - destruct (Fs.read_text (XTracker.state_file config) fs) as [text|e];
        [|discriminate].
      destruct (Json.loads text) as [stored|]; [|discriminate].
      intros [= <-]. cbn [XTracker.st_state].
      destruct (comprehension (fun a => dict_get a stored)
                  (XTracker.accounts config)) as (Hk & Hn & _). auto.
    - intros [= <-]. cbn [XTracker.st_state].
      destruct (comprehension (fun _ => @None str)
                  (XTracker.accounts config)) as (Hk & Hn & _). auto. }
  assert (Hkeep : forall st : XTracker.St W,
             (forall k, k ∈ XTracker.accounts config ->
                        k ∈ PyDict.keys (XTracker.st_state st)) ->
             PyDict.keys (XTracker.st_state (snd (XTracker.check_once net config st)))
             = PyDict.keys (XTracker.st_state st)).
  { intros st Hsub. rewrite check_once_unfold.
    pose proof (for_each_frame net (XTracker.accounts config) st) as (_ & _ & _ & H4).
    specialize (H4 Hsub).
    destruct (XTracker.for_each (XTracker.accounts config)
                (XTracker.check_account net) st) as [[[]|e] st1]; cbn [snd] in *.
    - destruct (persist_frame config st1) as (-> & _). exact H4.
    - exact H4. }
  split; [exact Hinit|]. split; [exact Hkeep|]. split.
  { induction n as [|n IH]; intros st Hsub; [reflexivity|].
    cbn [XTracker.run]. unfold XTracker.bind.
    pose proof (Hkeep st Hsub) as Hone.
    destruct (XTracker.check_once net config st) as [[[]|e] st1];
      cbn [snd] in *; [|exact Hone].
    rewrite IH, Hone; [reflexivity|]. rewrite Hone. exact Hsub. }
  intros w fs st st' k Hst Hk Hrun.
  destruct (Hinit w fs st Hst) as (_ & Hkeys).
  pose proof (Hkeep st (fun a Ha => proj2 (Hkeys a) Ha)) as Hsame.
  rewrite Hrun in Hsame. cbn [snd] in Hsame. split.
  - rewrite Hsame, Hkeys. exact Hk.
  - rewrite check_once_unfold in Hrun.
    destruct (XTracker.for_each (XTracker.accounts config)
                (XTracker.check_account net) st) as [[[]|e] st1]; [|discriminate].
    apply persist_ok in Hrun as (fs1 & fs2 & E1 & E2 & ->).
    destruct (open_w_ok _ _ _ E2) as (Hp & _ & _).
    cbn [XTracker.st_fs XTracker.st_state]. unfold Fs.read_text, Fs.flush.
    rewrite node_at_insert by exact Hp.
    destruct (decide (XTracker.state_file config = XTracker.state_file config));
      [|congruence].
    rewrite universal_newlines_ascii by apply dumps_ascii. reflexivity.
Qed.

Lemma state_keys_follow_config_witness :
  let config := Demo.cfg [lit "Y"] in
  let net := Demo.net (lit "X") 200 in
  exists st st',
    XTracker.init config tt old_fs = Ok st
    /\ XTracker.st_state st = [(lit "Y", Some (lit "100"))]
    /\ XTracker.check_once net config st = (Ok tt, st')
    /\ (lit "old" ∉ PyDict.keys (XTracker.st_state st'))
    /\ Fs.read_text (XTracker.state_file config) (XTracker.st_fs st')
       = Ok (Json.dumps [(lit "Y", Some (lit "103"))]).
Proof.
  cbv zeta.
  set (config := Demo.cfg [lit "Y"]). set (net := Demo.net (lit "X") 200).
  set (st := {| XTracker.st_state := [(lit "Y", Some (lit "100"))];
                XTracker.st_world := tt; XTracker.st_log := [];
                XTracker.st_fs := old_fs; XTracker.st_seen := [old_fs] |}).
  assert (Hinit : XTracker.init config tt old_fs = Ok st) by (vm_compute; reflexivity).
  exists st, (snd (XTracker.check_once net config st)).
  destruct (state_keys_follow_config net config) as (_ & _ & _ & H3).
  destruct (H3 tt old_fs st (snd (XTracker.check_once net config st)) (lit "old")
              Hinit) as (Ha & Hb).
  - intros Hin. apply list_elem_of_singleton in Hin. discriminate.
  - vm_compute. reflexivity.
  - split; [exact Hinit|]. split; [reflexivity|].
    split; [vm_compute; reflexivity|]. split; [exact Ha|].
    rewrite Hb. vm_compute. reflexivity.
Defined.


(* ================================================================== *)
(** * Further properties of the code *)
(* ================================================================== *)

(** ** Splitting and stripping *)

Lemma split_on_not_nil sep s : PyText.split_on sep s <> [].
Proof.
  destruct s as [|c r]; cbn; [discriminate|].
  destruct (c =? sep); [discriminate|].
  destruct (PyText.split_on sep r); discriminate.
Qed.

Lemma last_piece_cons sep c r :
  PyText.last_piece (PyText.split_on sep (c :: r))
    = PyText.last_piece (PyText.split_on sep r)
  \/ (c <> sep /\
      PyText.last_piece (PyText.split_on sep (c :: r))
        = c :: PyText.last_piece (PyText.split_on sep r)).
Proof.
  pose proof (split_on_not_nil sep r) as Hne.
  unfold PyText.last_piece. cbn [PyText.split_on].
  destruct (N.eqb_spec c sep) as [->|Hc].
  - left. destruct (PyText.split_on sep r); [congruence|reflexivity].
  - destruct (PyText.split_on sep r) as [|piece [|p2 pieces]]; [congruence| |].
    + right. split; [exact Hc|reflexivity].
    + left. reflexivity.
Qed.

Lemma last_piece_no_sep sep s :
  sep ∉ PyText.last_piece (PyText.split_on sep s).
Proof.
  induction s as [|c r IH]; [cbn; apply not_elem_of_nil|].
  destruct (last_piece_cons sep c r) as [->|[Hc ->]]; [exact IH|].
  apply not_elem_of_cons. split; [congruence|exact IH].
Qed.

Lemma last_piece_subset sep s x :
  x ∈ PyText.last_piece (PyText.split_on sep s) -> x ∈ s.
Proof.
  induction s as [|c r IH]; [cbn; auto|].
  destruct (last_piece_cons sep c r) as [->|[Hc ->]].
  - intros H. right. auto.
  - intros [->|H]%elem_of_cons; [left|right; auto].
Qed.

Lemma last_piece_not_nil sep s :
  List.last s sep <> sep ->
  PyText.last_piece (PyText.split_on sep s) <> [].
Proof.
  induction s as [|c r IH]; [cbn; congruence|].
  intros Hlast. destruct r as [|d r'].
  - cbn in Hlast. unfold PyText.last_piece. cbn.
    destruct (N.eqb_spec c sep); [congruence|discriminate].
  - assert (Hr : List.last (d :: r') sep <> sep) by exact Hlast.
    specialize (IH Hr).
    destruct (last_piece_cons sep c (d :: r')) as [->|[_ ->]];
      [exact IH|discriminate].
Qed.

Lemma lstrip_char_subset ch s x : x ∈ PyText.lstrip_char ch s -> x ∈ s.
Proof.
  induction s as [|c r IH]; cbn; [auto|].
  destruct (c =? ch); [|auto]. intros H. right. auto.
Qed.

Lemma lstrip_char_head ch s :
  (exists x, x ∈ s /\ x <> ch) ->
  exists y rest, PyText.lstrip_char ch s = y :: rest /\ y <> ch.
Proof.
  induction s as [|c r IH]; intros (x & Hx & Hne); [inversion Hx|].
  cbn. destruct (N.eqb_spec c ch) as [->|Hc].
  - apply IH. exists x. split; [|exact Hne].
    apply elem_of_cons in Hx as [->|Hx]; [congruence|exact Hx].
  - exists c, r. auto.
Qed.

Lemma elem_of_rev {A} (x : A) l : x ∈ rev l <-> x ∈ l.
Proof. rewrite !list_elem_of_In. symmetry. apply List.in_rev. Qed.

Lemma rstrip_char_subset ch s x : x ∈ PyText.rstrip_char ch s -> x ∈ s.
Proof.
  unfold PyText.rstrip_char. rewrite elem_of_rev.
  intros H%lstrip_char_subset. apply elem_of_rev. exact H.
Qed.

Lemma rstrip_char_last ch s :
  (exists x, x ∈ s /\ x <> ch) ->
  List.last (PyText.rstrip_char ch s) ch <> ch.
Proof.
  intros (x & Hx & Hne). unfold PyText.rstrip_char.
  destruct (lstrip_char_head ch (rev s)) as (y & rest & -> & Hy).
  { exists x. split; [apply elem_of_rev; exact Hx|exact Hne]. }
  cbn [rev]. rewrite List.last_last. exact Hy.
Qed.

Lemma startswith_subset pat s x :
  PyText.startswith pat s = true -> x ∈ pat -> x ∈ s.
Proof.
  revert s. induction pat as [|p pat IH]; intros s Hs Hx; [inversion Hx|].
  destruct s as [|c r]; [discriminate|]. cbn in Hs.
  apply andb_prop in Hs as [Hp Hs]. apply N.eqb_eq in Hp. subst c.
  apply elem_of_cons in Hx as [->|Hx]; [left|right; eauto].
Qed.

Lemma contains_subset pat s x :
  PyText.contains pat s = true -> x ∈ pat -> x ∈ s.
Proof.
  induction s as [|c r IH]; cbn [PyText.contains]; intros Hc Hx.
  - rewrite orb_false_r in Hc. eapply startswith_subset; eassumption.
  - apply orb_prop in Hc as [Hc|Hc].
    + eapply startswith_subset; eassumption.
    + right. auto.
Qed.

(** The identifier taken from a status link is a non-empty piece of the
    link without any slash. *)
Lemma tweet_id_of_spec href :
  PyText.contains (lit "/status/") href = true ->
  Scrape.tweet_id_of href <> []
  /\ (47 ∉ Scrape.tweet_id_of href)
  /\ forall x, x ∈ Scrape.tweet_id_of href -> x ∈ href.
Proof.
  intros Hc. unfold Scrape.tweet_id_of. split; [|split].
  - apply last_piece_not_nil, rstrip_char_last. exists 115. split; [|lia].
    apply (contains_subset (lit "/status/")); [exact Hc|].
    change (115 ∈ [47; 115; 116; 97; 116; 117; 115; 47]). right. left.
  - apply last_piece_no_sep.
  - intros x H%last_piece_subset. eapply rstrip_char_subset, H.
Qed.

(** ** The loop of [extract_tweets] *)

Lemma collect_spec elements :
  forall seen tweets max_tweets,
    NoDup (List.map Web.id tweets) ->
    (forall i, i ∈ seen <-> i ∈ List.map Web.id tweets) ->
    (length tweets < max_tweets \/ tweets = [])%nat ->
    let R := Scrape.collect elements seen tweets max_tweets in
    NoDup (List.map Web.id R)
    /\ (length R <= Nat.max max_tweets 1)%nat
    /\ (forall t, t ∈ tweets -> t ∈ R)
    /\ (forall t, t ∈ R ->
          t ∈ tweets \/ exists el href, el ∈ elements /\ status_link el href
                                        /\ t = tweet_of href el)
    /\ ((length R < max_tweets)%nat ->
        forall el href, el ∈ elements -> status_link el href ->
                        Scrape.tweet_id_of href ∈ List.map Web.id R).
Proof.
  induction elements as [|el rest IH]; intros seen tweets max_tweets Hnd Hseen Hlen;
    cbv zeta; cbn [Scrape.collect].
  - repeat split; auto.
    + destruct Hlen as [H| ->]; cbn; lia.
    + intros _ el href Hin. inversion Hin.
  - assert (Hskip :
      (forall href, ~ status_link el href) \/
      (exists href, status_link el href /\ Scrape.tweet_id_of href ∈ seen) ->
      let R := Scrape.collect rest seen tweets max_tweets in
      NoDup (List.map Web.id R)
      /\ (length R <= Nat.max max_tweets 1)%nat
      /\ (forall t, t ∈ tweets -> t ∈ R)
      /\ (forall t, t ∈ R ->
            t ∈ tweets \/ exists el' href, el' ∈ el :: rest /\ status_link el' href
                                           /\ t = tweet_of href el')
      /\ ((length R < max_tweets)%nat ->
          forall el' href, el' ∈ el :: rest -> status_link el' href ->
                           Scrape.tweet_id_of href ∈ List.map Web.id R)).
    { intros Hel. cbv zeta.
      destruct (IH seen tweets max_tweets Hnd Hseen Hlen) as (R1 & R2 & R3 & R4 & R5).
      repeat split; auto.
      - intros t Ht. destruct (R4 t Ht) as [H|(el' & href & Hin & Hs & ->)]; [auto|].
        right. exists el', href. split; [right; exact Hin|auto].
      - intros Hlt el' href [->|Hin]%elem_of_cons Hs; [|eauto].
        destruct Hel as [Hno|(href' & Hs' & Hin')]; [exfalso; eapply Hno, Hs|].
        destruct Hs as (E & _), Hs' as (E' & _). rewrite E in E'.
        injection E' as <-. apply Hseen in Hin'.
        apply list_elem_of_fmap in Hin' as (t & Ht & Hin').
        apply list_elem_of_fmap. exists t. auto. }
    destruct (Scrape.link_href el) as [[[|c h]|]|] eqn:Elink;
      try (apply Hskip; left; intros href (E & Hne & _); congruence).
    destruct (PyText.contains (lit "/status/") (c :: h)) eqn:Econt;
      [|apply Hskip; left; intros href (E & Hne & Hc); congruence].
    assert (Hs : status_link el (c :: h)) by (repeat split; [exact Elink|discriminate|exact Econt]).
    destruct (decide (Scrape.tweet_id_of (c :: h) ∈ seen)) as [Hin|Hnin];
      [apply Hskip; right; eauto|].
    fold (tweet_of (c :: h) el).
    assert (Hnd' : NoDup (List.map Web.id (tweets ++ [tweet_of (c :: h) el]))).
    { rewrite map_app. apply NoDup_app. split; [exact Hnd|]. split.
      - intros i Hi [->|H]%elem_of_cons; [|inversion H].
        apply Hnin, Hseen, Hi.
      - apply NoDup_singleton. }
    destruct (Nat.leb_spec max_tweets (length (tweets ++ [tweet_of (c :: h) el])))
      as [Hstop|Hgo].
    + rewrite length_app in Hstop. cbn [length] in Hstop.
      split; [exact Hnd'|]. split; [rewrite length_app; cbn [length]; destruct Hlen as [H| ->]; cbn; lia|].
      split; [intros t Ht; apply elem_of_app; auto|]. split.
      * intros t [Ht|Ht]%elem_of_app; [auto|].
        apply list_elem_of_singleton in Ht as ->.
        right. exists el, (c :: h). split; [left|auto].
      * rewrite length_app. cbn [length]. lia.
    + destruct (IH (Scrape.tweet_id_of (c :: h) :: seen)
                  (tweets ++ [tweet_of (c :: h) el]) max_tweets Hnd')
        as (R1 & R2 & R3 & R4 & R5).
      { intros i. rewrite map_app, elem_of_cons, elem_of_app, Hseen.
        cbn. rewrite list_elem_of_singleton. tauto. }
      { left. exact Hgo. }
      split; [exact R1|]. split; [exact R2|].
      split; [intros t Ht; apply R3, elem_of_app; auto|]. split.
      * intros t Ht. destruct (R4 t Ht) as [[H|H]%elem_of_app|(el' & href & Hin & Hs' & ->)].
        -- auto.
        -- apply list_elem_of_singleton in H as ->.
           right. exists el, (c :: h). split; [left|auto].
        -- right. exists el', href. split; [right; exact Hin|auto].
      * intros Hlt el' href [->|Hin]%elem_of_cons Hs'; [|eauto].
        destruct Hs as (E & _), Hs' as (E' & _). rewrite E in E'.
        injection E' as <-.
        apply (list_elem_of_fmap_2 Web.id _ (tweet_of (c :: h) el)).
        apply R3, elem_of_app. right. left.
Qed.

(** ** White space *)

Lemma lstrip_head s :
  match PyStr.lstrip s with
  | c :: _ => PyStr.isspace c = false
  | [] => True
  end.
Proof.
  induction s as [|c r IH]; cbn; [exact I|].
  destruct (PyStr.isspace c) eqn:E; [exact IH|exact E].
Qed.

Lemma lstrip_fixed s :
  match s with c :: _ => PyStr.isspace c = false | [] => True end ->
  PyStr.lstrip s = s.
Proof. destruct s as [|c r]; cbn; [reflexivity|]. intros ->. reflexivity. Qed.

Lemma lstrip_suffix s : exists pre, s = pre ++ PyStr.lstrip s.
Proof.
  induction s as [|c r [pre IH]]; cbn; [exists []; reflexivity|].
  destruct (PyStr.isspace c).
  - exists (c :: pre). cbn. rewrite <- IH. reflexivity.
  - exists []. reflexivity.
Qed.

Lemma rstrip_fixed s :
  match rev s with c :: _ => PyStr.isspace c = false | [] => True end ->
  PyStr.rstrip s = s.
Proof.
  intros H. unfold PyStr.rstrip. rewrite lstrip_fixed by exact H.
  apply rev_involutive.
Qed.

Lemma rstrip_prefix s : exists post, s = PyStr.rstrip s ++ post.
Proof.
  unfold PyStr.rstrip. destruct (lstrip_suffix (rev s)) as [pre E].
  exists (rev pre). rewrite <- rev_app_distr, <- E. symmetry. apply rev_involutive.
Qed.

Lemma rstrip_rev_head s :
  match rev (PyStr.rstrip s) with
  | c :: _ => PyStr.isspace c = false
  | [] => True
  end.
Proof. unfold PyStr.rstrip. rewrite rev_involutive. apply lstrip_head. Qed.

(** A stripped text neither begins nor ends with white space. *)
Lemma strip_ends s :
  match PyStr.strip s with c :: _ => PyStr.isspace c = false | [] => True end
  /\ match rev (PyStr.strip s) with
     | c :: _ => PyStr.isspace c = false
     | [] => True
     end.
Proof.
  unfold PyStr.strip. split; [|apply rstrip_rev_head].
  pose proof (lstrip_head s) as Hh.
  destruct (rstrip_prefix (PyStr.lstrip s)) as [post E].
  destruct (PyStr.rstrip (PyStr.lstrip s)) as [|c r]; [exact I|].
  rewrite E in Hh. exact Hh.
Qed.

Lemma strip_fixed s :
  match s with c :: _ => PyStr.isspace c = false | [] => True end ->
  match rev s with c :: _ => PyStr.isspace c = false | [] => True end ->
  PyStr.strip s = s.
Proof.
  intros H1 H2. unfold PyStr.strip. rewrite lstrip_fixed by exact H1.
  apply rstrip_fixed, H2.
Qed.

Lemma strip_idempotent s : PyStr.strip (PyStr.strip s) = PyStr.strip s.
Proof. destruct (strip_ends s). apply strip_fixed; assumption. Qed.

Lemma strip_subset s x : x ∈ PyStr.strip s -> x ∈ s.
Proof.
  unfold PyStr.strip. intros H.
  destruct (rstrip_prefix (PyStr.lstrip s)) as [post E].
  destruct (lstrip_suffix s) as [pre E'].
  rewrite E', E. apply elem_of_app. right. apply elem_of_app. left. exact H.
Qed.

Lemma universal_newlines_no_cr_bounded n :
  forall s, (length s <= n)%nat -> 13 ∉ PyStr.universal_newlines s.
Proof.
  induction n as [|n IH]; intros s Hlen.
  - destruct s; [apply not_elem_of_nil|cbn in Hlen; lia].
  - destruct s as [|c r]; [apply not_elem_of_nil|].
    cbn [length] in Hlen. cbn [PyStr.universal_newlines].
    destruct (N.eqb_spec c 13) as [->|Hc].
    + destruct r as [|d r'].
      * apply not_elem_of_cons. split; [lia|apply not_elem_of_nil].
      * cbn [length] in Hlen. destruct (d =? 10);
          (apply not_elem_of_cons; split; [lia|apply IH; cbn [length]; lia]).
    + apply not_elem_of_cons. split; [congruence|apply IH; lia].
Qed.

Lemma universal_newlines_no_cr s : 13 ∉ PyStr.universal_newlines s.
Proof. apply (universal_newlines_no_cr_bounded (length s)). lia. Qed.

Lemma universal_newlines_fixed s : 13 ∉ s -> PyStr.universal_newlines s = s.
Proof.
  induction s as [|c r IH]; [reflexivity|].
  intros [Hc Hr]%not_elem_of_cons. cbn [PyStr.universal_newlines].
  destruct (N.eqb_spec c 13); [congruence|]. rewrite IH by exact Hr. reflexivity.
Qed.

(** Text without white space, if not empty, comes back from [last_id.txt]
    as it was written. *)
Lemma no_space_kept s : Scrape.no_space s -> s <> [] -> WebRuns.kept_by_file s.
Proof.
  intros Hs Hne. split; [|exact Hne].
  assert (Hcr : 13 ∉ s).
  { intros Hin. unfold Scrape.no_space in Hs. rewrite Forall_forall in Hs.
    specialize (Hs 13 Hin). discriminate. }
  rewrite universal_newlines_fixed by exact Hcr.
  apply strip_fixed.
  - destruct s as [|c r]; [exact I|]. apply (Forall_inv Hs).
  - destruct (rev s) as [|c r] eqn:E; [exact I|].
    unfold Scrape.no_space in Hs. rewrite Forall_forall in Hs. apply Hs.
    apply elem_of_rev. rewrite E. left.
Qed.

(** ** [extract_tweets] *)

Lemma extract_from_spec outcome max_tweets :
  let R := Scrape.extract_from outcome max_tweets in
  NoDup (List.map Web.id R)
  /\ (length R <= Nat.max max_tweets 1)%nat
  /\ (forall t, t ∈ R ->
        exists elements el href,
          outcome = Scrape.Loaded elements /\ el ∈ elements
          /\ status_link el href /\ t = tweet_of href el)
  /\ ((length R < max_tweets)%nat ->
      forall elements el href,
        outcome = Scrape.Loaded elements -> el ∈ elements ->
        status_link el href -> Scrape.tweet_id_of href ∈ List.map Web.id R).
Proof.
  cbv zeta. destruct outcome as [elements| |]; cbn [Scrape.extract_from].
  - destruct (collect_spec elements [] [] max_tweets) as (R1 & R2 & _ & R4 & R5).
    { constructor. }
    { intros i. reflexivity. }
    { right. reflexivity. }
    split; [exact R1|]. split; [exact R2|]. split.
    + intros t Ht. destruct (R4 t Ht) as [H|(el & href & Hin & Hs & ->)];
        [inversion H|]. exists elements, el, href. auto.
    + intros Hlt els el href [= <-]. apply R5, Hlt.
  - repeat split; [constructor|cbn; lia|intros t H; inversion H|discriminate].
  - repeat split; [constructor|cbn; lia|intros t H; inversion H|discriminate].
Qed.

(** X1. The tweets returned by [extract_tweets] carry pairwise distinct
    identifiers, and there are at most [max_tweets] of them (one when
    [max_tweets] is 0, as the bound is tested after appending). *)
Theorem extract_tweets_distinct_bounded outcome max_tweets :
  NoDup (List.map Web.id (Scrape.extract_from outcome max_tweets))
  /\ (length (Scrape.extract_from outcome max_tweets) <= Nat.max max_tweets 1)%nat.
Proof.
  destruct (extract_from_spec outcome max_tweets) as (H1 & H2 & _). auto.
Qed.

(** X2. Every tweet returned by [extract_tweets] has a non-empty identifier
    without a slash, made of characters of its link; its url begins with
    "http"; its text is stripped. *)
Theorem extract_tweets_fields outcome max_tweets t :
  t ∈ Scrape.extract_from outcome max_tweets ->
  Web.id t <> [] /\ (47 ∉ Web.id t)
  /\ PyText.startswith (lit "http") (Web.url t) = true
  /\ PyStr.strip (Web.text t) = Web.text t.
Proof.
  intros Ht. destruct (extract_from_spec outcome max_tweets) as (_ & _ & H3 & _).
  destruct (H3 t Ht) as (elements & el & href & _ & _ & (_ & _ & Hc) & ->).
  destruct (tweet_id_of_spec href Hc) as (Hne & Hslash & _).
  cbn [tweet_of Web.id Web.url Web.text].
  split; [exact Hne|]. split; [exact Hslash|]. split.
  - unfold Scrape.url_of.
    destruct (PyText.startswith (lit "http") href) eqn:E; [exact E|reflexivity].
  - apply strip_idempotent.
Qed.

Lemma extract_tweets_fields_witness :
  let page := Scrape.Loaded [link "/u/status/42/" " hello "; link "/u/status/41" "x"] in
  let t := {| Web.id := lit "42"; Web.url := lit "https://x.com/u/status/42/";
              Web.text := lit "hello" |} in
  t ∈ Scrape.extract_from page 10
  /\ Web.id t <> [] /\ PyStr.strip (Web.text t) = Web.text t.
Proof.
  cbv zeta.
  assert (Hin : {| Web.id := lit "42"; Web.url := lit "https://x.com/u/status/42/";
                   Web.text := lit "hello" |}
                ∈ Scrape.extract_from
                    (Scrape.Loaded [link "/u/status/42/" " hello ";
                                    link "/u/status/41" "x"]) 10).
  { left. }
  destruct (extract_tweets_fields _ _ _ Hin) as (H1 & _ & _ & H4).
  split; [exact Hin|]. split; [exact H1|exact H4].
Defined.

(** X3. No status link is lost unless the bound was reached: when fewer
    than [max_tweets] tweets come back, the identifier of every element with
    a status link is among them. *)
Theorem extract_tweets_complete elements max_tweets el href :
  el ∈ elements -> status_link el href ->
  (length (Scrape.extract_from (Scrape.Loaded elements) max_tweets) < max_tweets)%nat ->
  Scrape.tweet_id_of href
    ∈ List.map Web.id (Scrape.extract_from (Scrape.Loaded elements) max_tweets).
Proof.
  intros Hin Hs Hlt.
  destruct (extract_from_spec (Scrape.Loaded elements) max_tweets) as (_ & _ & _ & H4).
  eapply H4; eauto.
Qed.

Lemma extract_tweets_complete_witness :
  let elements := [link "/u/status/42/" "a"; link "/u/status/42" "again";
                   link "/u/status/41" "b"] in
  lit "41" ∈ List.map Web.id (Scrape.extract_from (Scrape.Loaded elements) 10).
Proof.
  cbv zeta.
  apply (extract_tweets_complete _ 10 (link "/u/status/41" "b") (lit "/u/status/41")).
  - right. right. left.
  - repeat split. discriminate.
  - vm_compute. lia.
Defined.

Lemma no_status_link_no_tweet elements max_tweets :
  (forall el href, el ∈ elements -> ~ status_link el href) ->
  Scrape.extract_from (Scrape.Loaded elements) max_tweets = [].
Proof.
  intros Hno.
  destruct (extract_from_spec (Scrape.Loaded elements) max_tweets) as (_ & _ & H3 & _).
  destruct (Scrape.extract_from (Scrape.Loaded elements) max_tweets) as [|t r];
    [reflexivity|].
  destruct (H3 t) as (els & el & href & [= <-] & Hin & Hs & _); [left|].
  exfalso. eapply Hno; eassumption.
Qed.

(** X4. A scrape that fails is taken for a page without tweets: after a
    timeout, any other exception, or a page without a status link, [main]
    sends nothing and leaves [last_id.txt] as it was. *)
Theorem failed_scrape_changes_nothing {W}
    (browse : str -> W -> Scrape.page_outcome * W)
    (post : str -> W -> Web.post_outcome * W)
    (config : Web.Config) (st : Web.St W) outcome w' :
  browse (Scrape.BASE_URL ++ [47] ++ Web.X_USERNAME config) (Web.world st)
    = (outcome, w') ->
  (outcome = Scrape.TimedOut \/ outcome = Scrape.Crashed
   \/ exists elements, outcome = Scrape.Loaded elements
        /\ forall el href, el ∈ elements -> ~ status_link el href) ->
  Web.main (Scrape.net browse post) config st
  = {| Web.last_id_file := Web.last_id_file st; Web.world := w';
       Web.sends := Web.sends st |}.
Proof.
  intros Hb Hfail. apply main_empty_page. cbn [Scrape.net Web.extract_tweets].
  rewrite Hb. f_equal.
  destruct Hfail as [->|[->|(elements & -> & Hno)]]; [reflexivity|reflexivity|].
  apply no_status_link_no_tweet, Hno.
Qed.

Lemma failed_scrape_changes_nothing_witness :
  let st : Web.St unit :=
    {| Web.last_id_file := Some (lit "7"); Web.world := tt; Web.sends := [] |} in
  Web.main (Scrape.net (fun _ w => (Scrape.TimedOut, w))
              (fun _ w => (Web.Response 200, w))) WebRuns.cfg st = st.
Proof.
  cbv zeta.
  apply (failed_scrape_changes_nothing (fun _ w => (Scrape.TimedOut, w))
           (fun _ w => (Web.Response 200, w)) WebRuns.cfg
           {| Web.last_id_file := Some (lit "7"); Web.world := tt; Web.sends := [] |}
           Scrape.TimedOut tt eq_refl).
  left. reflexivity.
Defined.

Lemma scan_new_length tweets seen :
  (length (Web.scan_new tweets seen) <= length tweets)%nat.
Proof.
  induction tweets as [|t r IH]; cbn; [lia|].
  destruct (decide (Web.id t = seen)); cbn; lia.
Qed.

Lemma diff_length tweets last_seen_id :
  (length (fst (Web.diff tweets last_seen_id)) <= length tweets)%nat.
Proof.
  unfold Web.diff. destruct tweets as [|newest r]; [cbn; lia|].
  destruct last_seen_id as [seen|]; cbn [fst]; [|cbn; lia].
  rewrite length_rev. apply scan_new_length.
Qed.

(** X5. When the status links of the page hold no white space, every
    identifier [extract_tweets] returns is read back from [last_id.txt] as
    it was written; over such a browser, once an identifier is stored no
    number of runs makes [read_last_id] return [None] again. *)
Theorem scraped_ids_survive_file {W}
    (browse : str -> W -> Scrape.page_outcome * W)
    (post : str -> W -> Web.post_outcome * W) (config : Web.Config) :
  (forall url w elements el href,
      fst (browse url w) = Scrape.Loaded elements -> el ∈ elements ->
      Scrape.link_href el = Some (Some href) -> Scrape.no_space href) ->
  (forall username w t,
      t ∈ fst (Web.extract_tweets (Scrape.net browse post) username w) ->
      WebRuns.kept_by_file (Web.id t))
  /\ (forall n (st : Web.St W),
         Web.read_last_id st <> None ->
         Web.read_last_id (WebRuns.main_n (Scrape.net browse post) config n st)
         <> None).
Proof.
  intros Hclean.
  assert (Hkept : forall username w t,
             t ∈ fst (Web.extract_tweets (Scrape.net browse post) username w) ->
             WebRuns.kept_by_file (Web.id t)).
  { intros username w t. cbn [Scrape.net Web.extract_tweets].
    specialize (Hclean (Scrape.BASE_URL ++ [47] ++ username) w).
    destruct (browse (Scrape.BASE_URL ++ [47] ++ username) w) as [outcome w'].
    cbn [fst] in *. intros Ht.
    destruct (extract_from_spec outcome 10) as (_ & _ & H3 & _).
    destruct (H3 t Ht) as (elements & el & href & -> & Hin & (E & _ & Hc) & ->).
    destruct (tweet_id_of_spec href Hc) as (Hne & _ & Hsub).
    cbn [tweet_of Web.id]. apply no_space_kept; [|exact Hne].
    specialize (Hclean elements el href eq_refl Hin E).
    unfold Scrape.no_space in *. rewrite Forall_forall in *.
    intros x Hx. apply Hclean, Hsub, Hx. }
  split; [exact Hkept|].
  intros n st. apply main_n_keeps_identifier. exact Hkept.
Qed.

Lemma example_links_clean :
  forall el href,
    el ∈ [link "/u/status/42/" "a"; link "/u/status/41" "b"] ->
    Scrape.link_href el = Some (Some href) -> Scrape.no_space href.
Proof.
  intros el href Hin E.
  repeat (apply elem_of_cons in Hin as [->|Hin]); [| |inversion Hin];
    injection E as <-; unfold Scrape.no_space; rewrite Forall_forall;
    intros x Hx; repeat (apply elem_of_cons in Hx as [->|Hx]; [reflexivity|]);
    inversion Hx.
Qed.

Lemma scraped_ids_survive_file_witness :
  let elements := [link "/u/status/42/" "a"; link "/u/status/41" "b"] in
  let net := Scrape.net (steady_browser elements) (fun _ w => (Web.RequestFailed, w)) in
  let st : Web.St unit :=
    {| Web.last_id_file := Some (lit "41"); Web.world := tt; Web.sends := [] |} in
  WebRuns.kept_by_file (lit "42")
  /\ Web.read_last_id (WebRuns.main_n net WebRuns.cfg 3 st) <> None.
Proof.
  cbv zeta.
  destruct (scraped_ids_survive_file
              (steady_browser [link "/u/status/42/" "a"; link "/u/status/41" "b"])
              (fun _ w => (Web.RequestFailed, w)) WebRuns.cfg) as (H1 & H2).
  - intros url w elements el href [= <-]. apply example_links_clean.
  - split.
    + apply (H1 (lit "u") tt
               {| Web.id := lit "42"; Web.url := lit "https://x.com/u/status/42/";
                  Web.text := lit "a" |}).
      left.
    + apply H2. discriminate.
Defined.

(** X6. What [read_last_id] returns is never empty, has no white space at
    either end, and is stable: writing it with [write_last_id] and reading
    again gives the same identifier. *)
Theorem read_last_id_stable {W} (st st' : Web.St W) i :
  Web.read_last_id st = Some i ->
  i <> [] /\ PyStr.strip i = i
  /\ Web.read_last_id (Web.write_last_id i st') = Some i.
Proof.
  unfold Web.read_last_id at 1.
  destruct (Web.last_id_file st) as [raw|]; [|discriminate].
  destruct (PyStr.strip (PyStr.universal_newlines raw)) as [|c s] eqn:E;
    [discriminate|].
  intros [= <-].
  assert (Hstrip : PyStr.strip (c :: s) = c :: s)
    by (rewrite <- E; apply strip_idempotent).
  assert (Hcr : 13 ∉ c :: s).
  { intros Hin. rewrite <- E in Hin. apply strip_subset in Hin.
    exact (universal_newlines_no_cr raw Hin). }
  split; [discriminate|]. split; [exact Hstrip|].
  unfold Web.read_last_id, Web.write_last_id. cbn [Web.last_id_file].
  rewrite universal_newlines_fixed by exact Hcr. rewrite Hstrip. reflexivity.
Qed.

Lemma read_last_id_stable_witness :
  let st : Web.St unit :=
    {| Web.last_id_file := Some (lit "  1890 "); Web.world := tt; Web.sends := [] |} in
  Web.read_last_id st = Some (lit "1890")
  /\ Web.read_last_id (Web.write_last_id (lit "1890") st) = Some (lit "1890").
Proof.
  cbv zeta. split; [reflexivity|].
  apply (read_last_id_stable
           {| Web.last_id_file := Some (lit "  1890 "); Web.world := tt;
              Web.sends := [] |}).
  reflexivity.
Defined.

(** X7. One run of the web tracker over the browser calls
    [send_to_telegram] at most 10 times. *)
Theorem run_sends_at_most_ten {W}
    (browse : str -> W -> Scrape.page_outcome * W)
    (post : str -> W -> Web.post_outcome * W)
    (config : Web.Config) (st : Web.St W) :
  (length (Web.sends (Web.main (Scrape.net browse post) config st))
   <= length (Web.sends st) + 10)%nat.
Proof.
  destruct (main_diff (Scrape.net browse post) config st) as [H _].
  apply (f_equal (@length str)) in H.
  rewrite length_app, !length_map in H. rewrite H.
  apply Nat.add_le_mono_l.
  etransitivity; [apply diff_length|].
  cbn [Scrape.net Web.extract_tweets].
  destruct (browse (Scrape.BASE_URL ++ [47] ++ Web.X_USERNAME config) (Web.world st))
    as [outcome w']. cbn [fst].
  destruct (extract_from_spec outcome 10) as (_ & H2 & _). exact H2.
Qed.

(** ** The log of a cycle of the API tracker *)

Section LogFacts.
Context {W : Type} (net : XTracker.Network W) (config : XTracker.TrackerConfig).
Import XTracker.
Implicit Types (st : St W).

Lemma resolved_app l1 l2 : resolved (l1 ++ l2) = resolved l1 ++ resolved l2.
Proof. apply omap_app. Qed.

Lemma fetch_params_app l1 l2 :
  fetch_params (l1 ++ l2) = fetch_params l1 ++ fetch_params l2.
Proof. apply omap_app. Qed.

Lemma fetch_params_fetch uid p evs :
  fetch_params (CallFetch uid p :: evs) = p :: fetch_params evs.
Proof. reflexivity. Qed.

Lemma fetch_params_resolve u evs :
  fetch_params (CallGetUserId u :: evs) = fetch_params evs.
Proof. reflexivity. Qed.

Lemma resolved_resolve u evs :
  resolved (CallGetUserId u :: evs) = u :: resolved evs.
Proof. reflexivity. Qed.

Lemma sends_only evs :
  Forall is_send evs -> resolved evs = [] /\ fetch_params evs = [].
Proof.
  induction 1 as [|ev evs Hev _ [IH1 IH2]]; [auto|].
  destruct ev; try contradiction. cbn. auto.
Qed.

Lemma sends_log {A} (f : A -> str) (l : list A) st :
  exists evs,
    st_log (snd (for_each l (fun x => send_message net (f x)) st))
      = st_log st ++ evs
    /\ Forall is_send evs.
Proof.
  revert st. induction l as [|x l IH]; intros st.
  - exists []. cbn. rewrite app_nil_r. auto.
  - rewrite for_each_cons.
    destruct (send_message_spec net (f x) st) as (w' & ok & Hst & _).
    destruct (send_message net (f x) st) as [[[]|e] st']; cbn [snd] in *; subst st'.
    + destruct (IH {| st_state := st_state st; st_world := w';
                      st_log := st_log st ++ [CallSend (f x) ok];
                      st_fs := st_fs st; st_seen := st_seen st |}) as (evs & E & Hs).
      exists (CallSend (f x) ok :: evs). rewrite E. cbn [st_log].
      rewrite <- app_assoc. split; [reflexivity|]. constructor; [exact I|exact Hs].
    + exists [CallSend (f x) ok]. split; [reflexivity|].
      constructor; [exact I|constructor].
Qed.

(** The loop body resolves its account once, fetches at most once, with
    the stored identifier of the account, and touches no other account. *)
Lemma check_account_log username st :
  let st' := snd (check_account net username st) in
  (exists evs,
      st_log st' = st_log st ++ CallGetUserId username :: evs
      /\ resolved evs = []
      /\ forall p, p ∈ fetch_params evs ->
                   p = since_param (dict_get username (st_state st)))
  /\ (forall k, k <> username ->
                PyDict.lookup k (st_state st') = PyDict.lookup k (st_state st)).
Proof.
  cbv zeta.
  destruct (get_user_id net username (st_world st)) as [[uid|e] w1] eqn:Hid.
  - destruct (tweets_request net uid
                (match dict_get username (st_state st) with
                 | Some (c :: s) => Some (c :: s)
                 | _ => None
                 end) w1) as [[tweets|e] w2] eqn:Hfetch.
    + rewrite (check_account_fetched net username st uid w1 tweets w2 Hid Hfetch).
      cbv zeta. fold (since_param (dict_get username (st_state st))).
      destruct tweets as [|newest r].
      * cbn [snd st_log st_state]. split; [|auto].
        eexists. split; [reflexivity|]. split; [reflexivity|].
        intros p Hp. cbn in Hp. apply list_elem_of_singleton in Hp. exact Hp.
      * unfold _notify.
        match goal with |- context [for_each ?l ?b ?s] =>
          destruct (sends_spec net (_format_message username) l s) as (H1 & _);
          destruct (sends_log (_format_message username) l s) as (evs & E & Hs)
        end.
        rewrite H1, E. cbn [st_log st_state].
        destruct (sends_only evs Hs) as (Hr & Hf). split.
        -- exists (CallFetch uid (since_param (dict_get username (st_state st))) :: evs).
           rewrite <- app_assoc. split; [reflexivity|]. split; [exact Hr|].
           intros p Hp. rewrite fetch_params_fetch, Hf in Hp.
           apply list_elem_of_singleton in Hp. exact Hp.
        -- intros k Hk. apply lookup_set_ne. congruence.
    + unfold check_account, bind, x_get_user_id, fetch_latest_tweets, get_state,
        emit, request, bind, ret.
      cbn [st_world st_state st_log st_fs st_seen]. rewrite Hid.
      cbn [st_world st_state st_log st_fs st_seen]. rewrite Hfetch.
      cbn [snd st_log st_state]. split; [|auto].
      fold (since_param (dict_get username (st_state st))).
      exists [CallFetch uid (since_param (dict_get username (st_state st)))].
      rewrite <- app_assoc. split; [reflexivity|]. split; [reflexivity|].
      intros p Hp. cbn in Hp. apply list_elem_of_singleton in Hp. exact Hp.
  - unfold check_account, bind, x_get_user_id, emit, request, bind.
    cbn [st_world st_state st_log st_fs st_seen]. rewrite Hid.
    cbn [snd st_log st_state]. split; [|auto].
    exists []. split; [reflexivity|]. split; [reflexivity|].
    intros p Hp. inversion Hp.
Qed.

(** Over a list of accounts: those resolved are a prefix of the list, and
    all of it when the loop returned. *)
Lemma for_each_resolved (l : list str) st :
  let r := for_each l (check_account net) st in
  (exists k, resolved (st_log (snd r)) = resolved (st_log st) ++ take k l)
  /\ (fst r = Ok tt -> resolved (st_log (snd r)) = resolved (st_log st) ++ l).
Proof.
  cbv zeta. revert st. induction l as [|x l IH]; intros st.
  - cbn. rewrite app_nil_r. split; [exists O; rewrite app_nil_r|]; auto.
  - rewrite for_each_cons.
    destruct (check_account_log x st) as ((evs & E & Hr & _) & _).
    destruct (check_account net x st) as [[[]|e] st1]; cbn [snd fst] in *.
    + destruct (IH st1) as ((k & Hk) & Hall).
      rewrite E, resolved_app, resolved_resolve, Hr in Hk, Hall.
      split.
      * exists (S k). rewrite Hk, <- app_assoc. reflexivity.
      * intros Hok. rewrite (Hall Hok), <- app_assoc. reflexivity.
    + split; [|discriminate]. exists 1%nat.
      rewrite E, resolved_app, resolved_resolve, Hr. cbn [take].
      rewrite take_0. reflexivity.
Qed.

(** With distinct accounts that all have no stored identifier, every fetch
    of the loop is made without [since_id]. *)
Lemma for_each_fresh (l : list str) st :
  NoDup l -> (forall a, a ∈ l -> dict_get a (st_state st) = None) ->
  exists evs,
    st_log (snd (for_each l (check_account net) st)) = st_log st ++ evs
    /\ forall p, p ∈ fetch_params evs -> p = None.
Proof.
  revert st. induction l as [|x l IH]; intros st Hnd Hnone.
  - exists []. cbn. rewrite app_nil_r. split; [reflexivity|]. intros p Hp. inversion Hp.
  - apply NoDup_cons in Hnd as [Hx Hnd]. rewrite for_each_cons.
    destruct (check_account_log x st) as ((evs & E & _ & Hp) & Hother).
    rewrite (Hnone x) in Hp by left.
    destruct (check_account net x st) as [[[]|e] st1]; cbn [snd] in *.
    + destruct (IH st1 Hnd) as (evs' & E' & Hp').
      { intros a Ha. unfold dict_get. rewrite Hother.
        - apply Hnone. right. exact Ha.
        - intros ->. contradiction. }
      exists ((CallGetUserId x :: evs) ++ evs'). rewrite E', E, <- app_assoc.
      split; [reflexivity|]. intros p.
      rewrite fetch_params_app, fetch_params_resolve.
      intros [H|H]%elem_of_app; auto.
    + exists (CallGetUserId x :: evs). split; [exact E|]. intros p H.
      rewrite fetch_params_resolve in H. auto.
Qed.

End LogFacts.

(** X8. [check_once] resolves the accounts in the configured order: the
    accounts handed to [get_user_id] in a cycle are a prefix of the
    configured list, and the whole list, once each, when the cycle
    returned. *)
Theorem accounts_resolved_in_order {W} (net : XTracker.Network W)
    (config : XTracker.TrackerConfig) (st : XTracker.St W) :
  let r := XTracker.check_once net config st in
  (exists k,
      resolved (XTracker.st_log (snd r))
      = resolved (XTracker.st_log st) ++ take k (XTracker.accounts config))
  /\ (fst r = Ok tt ->
      resolved (XTracker.st_log (snd r))
      = resolved (XTracker.st_log st) ++ XTracker.accounts config).
Proof.
  cbv zeta. rewrite check_once_unfold.
  destruct (for_each_resolved net (XTracker.accounts config) st) as (Hk & Hall).
  destruct (XTracker.for_each (XTracker.accounts config)
              (XTracker.check_account net) st) as [[[]|e] st1]; cbn [fst snd] in *.
  - destruct (persist_frame config st1) as (_ & _ & ->).
    split; [exact Hk|]. intros _. apply Hall. reflexivity.
  - split; [exact Hk|discriminate].
Qed.

Lemma accounts_resolved_in_order_witness :
  resolved (XTracker.st_log
              (snd (XTracker.check_once (Demo.net (lit "X") 200)
                      (Demo.cfg [lit "Y"; lit "Z"])
                      (Demo.tracker [(lit "Y", None); (lit "Z", None)] ∅))))
  = [lit "Y"; lit "Z"].
Proof.
  destruct (accounts_resolved_in_order (Demo.net (lit "X") 200)
              (Demo.cfg [lit "Y"; lit "Z"])
              (Demo.tracker [(lit "Y", None); (lit "Z", None)] ∅)) as (_ & H).
  apply H. vm_compute. reflexivity.
Defined.

(** X9. A start without a state file gives every configured account the
    value [None], and, the accounts being distinct, every fetch of the
    first cycle is made without [since_id]. *)
Theorem fresh_start_fetches_without_since {W} (net : XTracker.Network W)
    (config : XTracker.TrackerConfig) (w : W) (fs : gmap (list str) node) :
  Fs.exists_ fs (XTracker.state_file config) = false ->
  NoDup (XTracker.accounts config) ->
  exists st,
    XTracker.init config w fs = Ok st
    /\ (forall a, a ∈ XTracker.accounts config ->
                  PyDict.lookup a (XTracker.st_state st) = Some None)
    /\ (forall p,
           p ∈ fetch_params
                 (XTracker.st_log (snd (XTracker.check_once net config st))) ->
           p = None).
Proof.
  intros Hno Hnd. unfold XTracker.init, XTracker._load_state. rewrite Hno.
  eexists. split; [reflexivity|].
  destruct (comprehension (fun _ => @None str) (XTracker.accounts config))
    as (_ & _ & Hl).
  split.
  - intros a Ha. rewrite Hl. destruct (decide (a ∈ XTracker.accounts config));
      [reflexivity|contradiction].
  - intros p. rewrite check_once_unfold.
    match goal with |- context [XTracker.for_each ?l ?b ?s] =>
      destruct (for_each_fresh net l s Hnd) as (evs & E & Hp) end.
    { intros a Ha. unfold dict_get. cbn [XTracker.st_state]. rewrite Hl.
      destruct (decide (a ∈ XTracker.accounts config)); reflexivity. }
    match goal with |- context [XTracker.for_each ?l ?b ?s] =>
      destruct (XTracker.for_each l b s) as [[[]|e] st1] end; cbn [snd] in *.
    + destruct (persist_frame config st1) as (_ & _ & ->). rewrite E.
      cbn [XTracker.st_log app]. exact (Hp p).
    + rewrite E. cbn [XTracker.st_log app]. exact (Hp p).
Qed.

Lemma two_accounts_distinct : NoDup [lit "Y"; lit "Z"].
Proof.
  repeat (apply NoDup_cons; split); [| |apply NoDup_nil_2];
    intros Hin;
    repeat (apply elem_of_cons in Hin as [Hin|Hin]; [discriminate|]);
    inversion Hin.
Qed.

Lemma fresh_start_fetches_without_since_witness :
  exists st,
    XTracker.init (Demo.cfg [lit "Y"; lit "Z"]) tt ∅ = Ok st
    /\ fetch_params
         (XTracker.st_log
            (snd (XTracker.check_once (Demo.net (lit "X") 200)
                    (Demo.cfg [lit "Y"; lit "Z"]) st)))
       = [None; None].
Proof.
  assert (Hno : Fs.exists_ (∅ : gmap (list str) node)
                  (XTracker.state_file (Demo.cfg [lit "Y"; lit "Z"])) = false)
    by (vm_compute; reflexivity).
  destruct (fresh_start_fetches_without_since (Demo.net (lit "X") 200)
              (Demo.cfg [lit "Y"; lit "Z"]) tt ∅ Hno two_accounts_distinct)
    as (st & Hst & _ & _).
  exists st. split; [exact Hst|].
  vm_compute in Hst. injection Hst as <-. vm_compute. reflexivity.
Defined.



(** X11. [run] ends with the first cycle that raises: once some number of
    rounds has ended with an exception, any larger number of rounds ends
    with the same exception in the same state. *)
Theorem run_stops_at_failure {W} (net : XTracker.Network W)
    (config : XTracker.TrackerConfig) (n : nat) :
  forall (st st' : XTracker.St W) e m,
    XTracker.run net config n st = (Raise e, st') ->
    (n <= m)%nat ->
    XTracker.run net config m st = (Raise e, st').
Proof.
  induction n as [|n IH]; intros st st' e m Hrun Hle; [discriminate|].
  destruct m as [|m]; [lia|].
  cbn [XTracker.run] in *. unfold XTracker.bind in *.
  destruct (XTracker.check_once net config st) as [[[]|e1] st1]; [|exact Hrun].
  apply IH; [exact Hrun|lia].
Qed.

Lemma run_stops_at_failure_witness :
  let config := Demo.cfg [lit "Y"; lit "X"] in
  let st := Demo.tracker [(lit "Y", None); (lit "X", None)] ∅ in
  XTracker.run (Demo.net (lit "X") 200) config 5 st
  = XTracker.run (Demo.net (lit "X") 200) config 1 st.
Proof.
  cbv zeta.
  rewrite (run_stops_at_failure (Demo.net (lit "X") 200)
             (Demo.cfg [lit "Y"; lit "X"]) 1
             (Demo.tracker [(lit "Y", None); (lit "X", None)] ∅)
             (snd (XTracker.run (Demo.net (lit "X") 200)
                     (Demo.cfg [lit "Y"; lit "X"]) 1
                     (Demo.tracker [(lit "Y", None); (lit "X", None)] ∅)))
             RuntimeError 5); [|vm_compute; reflexivity|lia].
  vm_compute. reflexivity.
Defined.



(** X13. The state file written by a cycle that returns is plain ASCII
    (printable characters and line feeds), whatever the handles and
    identifiers, and it is the dump of the state in memory. *)
Theorem saved_file_is_ascii {W} (net : XTracker.Network W)
    (config : XTracker.TrackerConfig) (st st' : XTracker.St W) :
  XTracker.check_once net config st = (Ok tt, st') ->
  exists text,
    Fs.node_at (XTracker.st_fs st') (XTracker.state_file config) = Some (File text)
    /\ text = Json.dumps (XTracker.st_state st')
    /\ ascii_text text.
Proof.
  rewrite check_once_unfold.
  destruct (XTracker.for_each (XTracker.accounts config)
              (XTracker.check_account net) st) as [[[]|e] st1]; [|discriminate].
  intros (fs1 & fs2 & E1 & E2 & ->)%persist_ok.
  destruct (open_w_ok _ _ _ E2) as (Hp & _ & _).
  exists (Json.dumps (XTracker.st_state st1)).
  cbn [XTracker.st_fs XTracker.st_state]. unfold Fs.flush.
  rewrite node_at_insert by exact Hp.
  destruct (decide (XTracker.state_file config = XTracker.state_file config));
    [|congruence].
  split; [reflexivity|]. split; [reflexivity|apply dumps_ascii].
Qed.

Lemma saved_file_is_ascii_witness :
  let config := Demo.cfg [[1055; 233; 128512]] in
  let st := Demo.tracker [([1055; 233; 128512], None)] ∅ in
  exists text,
    Fs.node_at (XTracker.st_fs
                  (snd (XTracker.check_once (Demo.net (lit "X") 200) config st)))
      (XTracker.state_file config) = Some (File text)
    /\ ascii_text text.
Proof.
  cbv zeta.
  destruct (saved_file_is_ascii (Demo.net (lit "X") 200)
              (Demo.cfg [[1055; 233; 128512]])
              (Demo.tracker [([1055; 233; 128512], None)] ∅)
              (snd (XTracker.check_once (Demo.net (lit "X") 200)
                      (Demo.cfg [[1055; 233; 128512]])
                      (Demo.tracker [([1055; 233; 128512], None)] ∅))))
    as (text & H1 & _ & H3); [vm_compute; reflexivity|].
  exists text. split; assumption.
Defined.

(** ** Configuration *)

Lemma lstrip_char_suffix ch s : exists pre, s = pre ++ PyText.lstrip_char ch s.
Proof.
  induction s as [|c r [pre IH]]; cbn; [exists []; reflexivity|].
  destruct (c =? ch).
  - exists (c :: pre). cbn. rewrite <- IH. reflexivity.
  - exists []. reflexivity.
Qed.

Lemma lstrip_char_fixed ch s :
  match s with c :: _ => c <> ch | [] => True end -> PyText.lstrip_char ch s = s.
Proof.
  destruct s as [|c r]; cbn; [reflexivity|]. intros Hc.
  destruct (N.eqb_spec c ch); [contradiction|reflexivity].
Qed.

Lemma lstrip_char_idempotent ch s :
  PyText.lstrip_char ch (PyText.lstrip_char ch s) = PyText.lstrip_char ch s.
Proof.
  apply lstrip_char_fixed.
  induction s as [|c r IH]; cbn; [exact I|].
  destruct (N.eqb_spec c ch); [exact IH|assumption].
Qed.

Lemma split_on_no_sep sep s piece :
  piece ∈ PyText.split_on sep s -> sep ∉ piece.
Proof.
  revert piece. induction s as [|c r IH]; intros piece; cbn [PyText.split_on].
  - intros ->%list_elem_of_singleton. apply not_elem_of_nil.
  - destruct (N.eqb_spec c sep) as [->|Hc].
    + intros [->|H]%elem_of_cons; [apply not_elem_of_nil|auto].
    + destruct (PyText.split_on sep r) as [|p ps].
      * intros ->%list_elem_of_singleton.
        apply not_elem_of_cons. split; [congruence|apply not_elem_of_nil].
      * intros [->|H]%elem_of_cons.
        -- apply not_elem_of_cons. split; [congruence|]. apply IH. left.
        -- apply IH. right. exact H.
Qed.

Lemma parse_accounts_elem raw a :
  a ∈ Env.parse_accounts raw ->
  exists piece, piece ∈ PyText.split_on 44 raw /\ PyStr.strip piece <> []
                /\ a = PyText.lstrip_char 64 (PyStr.strip piece).
Proof.
  unfold Env.parse_accounts. rewrite list_elem_of_In, List.in_map_iff.
  intros (piece & <- & Hin). apply List.filter_In in Hin as [Hin Hne].
  exists piece. split; [apply list_elem_of_In; exact Hin|]. split; [|reflexivity].
  destruct (PyStr.strip piece); [discriminate|discriminate].
Qed.

(** X14. A configuration built by [from_env] has at least one account and
    non-empty tokens; no account begins with "@", ends with white space or
    holds a comma. *)
Theorem from_env_guarantees (py_int : str -> option Z)
    (getenv : str -> option str) (cfg : Env.Settings) :
  Env.from_env py_int getenv = inr cfg ->
  Env.accounts cfg <> []
  /\ Env.x_bearer_token cfg <> [] /\ Env.telegram_bot_token cfg <> []
  /\ Env.telegram_chat_id cfg <> []
  /\ forall a, a ∈ Env.accounts cfg ->
       PyText.lstrip_char 64 a = a /\ PyStr.rstrip a = a /\ (44 ∉ a).
Proof.
  unfold Env.from_env, Env._require_env.
  destruct (Env.parse_accounts
              (Env.getenv_default getenv (lit "TRACKED_ACCOUNTS") []))
    as [|a0 l] eqn:Eacc; [discriminate|].
  destruct (getenv (lit "X_BEARER_TOKEN")) as [[|c1 v1]|]; try discriminate.
  destruct (getenv (lit "TELEGRAM_BOT_TOKEN")) as [[|c2 v2]|]; try discriminate.
  destruct (getenv (lit "TELEGRAM_CHAT_ID")) as [[|c3 v3]|]; try discriminate.
  destruct (py_int _) as [n|]; [|discriminate].
  intros [= <-]. cbn [Env.accounts Env.x_bearer_token Env.telegram_bot_token
                      Env.telegram_chat_id].
  repeat (split; [discriminate|]).
  intros a Ha. rewrite <- Eacc in Ha.
  apply parse_accounts_elem in Ha as (piece & Hpiece & _ & ->).
  split; [apply lstrip_char_idempotent|]. split.
  - apply rstrip_fixed.
    destruct (lstrip_char_suffix 64 (PyStr.strip piece)) as [pre E].
    destruct (strip_ends piece) as [_ Hend].
    generalize dependent (PyText.lstrip_char 64 (PyStr.strip piece)).
    intros a E. rewrite E, rev_app_distr in Hend.
    destruct (rev a); [exact I|exact Hend].
  - intros Hin. apply lstrip_char_subset, strip_subset in Hin.
    exact (split_on_no_sep 44 _ piece Hpiece Hin).
Qed.

Lemma from_env_guarantees_witness :
  exists cfg,
    Env.from_env (fun _ => Some 120%Z)
      (example_env (lit " @alice, bob ,,@@carol") (lit "secret")) = inr cfg
    /\ Env.accounts cfg = [lit "alice"; lit "bob"; lit "carol"]
    /\ Env.x_bearer_token cfg <> [].
Proof.
  eexists. split; [vm_compute; reflexivity|]. split; [reflexivity|].
  eapply (from_env_guarantees (fun _ => Some 120%Z)
            (example_env (lit " @alice, bob ,,@@carol") (lit "secret")) _).
  vm_compute. reflexivity.
Defined.

(** A handle made of "@" alone passes the filter and becomes the empty
    handle. *)
Example lone_at_is_an_empty_handle : Env.parse_accounts (lit "bob,@") = [lit "bob"; []].
Proof. reflexivity. Qed.

(** X15. [load_config] returns a configuration exactly when the three
    variables are set and not empty, and then with their values; otherwise
    the names it reports are exactly the unset or empty ones. *)
Theorem load_config_result (getenv : str -> option str) :
  match Env.load_config getenv with
  | inr cfg =>
      getenv (lit "X_USERNAME") = Some (Web.X_USERNAME cfg)
      /\ getenv (lit "TELEGRAM_BOT_TOKEN") = Some (Web.TELEGRAM_BOT_TOKEN cfg)
      /\ getenv (lit "TELEGRAM_CHAT_ID") = Some (Web.TELEGRAM_CHAT_ID cfg)
      /\ Web.X_USERNAME cfg <> [] /\ Web.TELEGRAM_BOT_TOKEN cfg <> []
      /\ Web.TELEGRAM_CHAT_ID cfg <> []
  | inl missing =>
      missing <> []
      /\ forall name,
           name ∈ missing <->
           (name ∈ [lit "X_USERNAME"; lit "TELEGRAM_BOT_TOKEN"; lit "TELEGRAM_CHAT_ID"]
            /\ Env.truthy (getenv name) = false)
  end.
Proof.
  unfold Env.load_config.
  assert (Hd1 : lit "X_USERNAME" <> lit "TELEGRAM_BOT_TOKEN") by discriminate.
  assert (Hd2 : lit "X_USERNAME" <> lit "TELEGRAM_CHAT_ID") by discriminate.
  assert (Hd3 : lit "TELEGRAM_BOT_TOKEN" <> lit "TELEGRAM_CHAT_ID") by discriminate.
  generalize dependent (lit "X_USERNAME").
  generalize dependent (lit "TELEGRAM_BOT_TOKEN").
  generalize dependent (lit "TELEGRAM_CHAT_ID").
  intros n3 n2 Hd3 n1 Hd1 Hd2.
  destruct (getenv n1) as [[|c1 v1]|] eqn:E1;
    destruct (getenv n2) as [[|c2 v2]|] eqn:E2;
    destruct (getenv n3) as [[|c3 v3]|] eqn:E3;
    cbn [List.filter List.map fst snd Env.truthy negb];
    try (split; [discriminate|];
         intros name; rewrite !elem_of_cons, !elem_of_nil;
         split;
         [intros H; repeat (destruct H as [->|H]; [rewrite ?E1, ?E2, ?E3; auto 8|]);
          contradiction
         |intros [H Ht];
          repeat (destruct H as [->|H];
                  [rewrite ?E1, ?E2, ?E3 in Ht; try discriminate; auto 8|]);
          contradiction]).
  repeat split; discriminate.
Qed.

(** ** Two edges: a blank [last_id.txt], a send that raises *)

Lemma universal_newlines_blank_bounded n :
  forall s, (length s <= n)%nat ->
            Forall (fun c => PyStr.isspace c = true) s ->
            Forall (fun c => PyStr.isspace c = true) (PyStr.universal_newlines s).
Proof.
  induction n as [|n IH]; intros s Hlen Hs.
  - destruct s; [constructor|cbn in Hlen; lia].
  - destruct s as [|c r]; [constructor|].
    cbn [length] in Hlen. apply Forall_cons in Hs as [Hc Hr].
    cbn [PyStr.universal_newlines]. destruct (c =? 13).
    + destruct r as [|d r'].
      * constructor; [reflexivity|constructor].
      * cbn [length] in Hlen. apply Forall_cons in Hr as [Hd Hr'].
        destruct (d =? 10);
          (constructor; [reflexivity|apply IH; [cbn [length]; lia|]]);
          [exact Hr'|constructor; assumption].
    + constructor; [exact Hc|apply IH; [lia|exact Hr]].
Qed.

Lemma lstrip_blank s :
  Forall (fun c => PyStr.isspace c = true) s -> PyStr.lstrip s = [].
Proof.
  induction 1 as [|c r Hc _ IH]; [reflexivity|]. cbn. rewrite Hc. exact IH.
Qed.

(** X16. A [last_id.txt] that holds only white space counts as no stored
    identifier: the run is a first run, it sends nothing and stores the
    newest fetched identifier. *)
Theorem blank_file_is_first_run {W} (net : Web.Network W) (config : Web.Config)
    (st : Web.St W) raw newest rest w' :
  Web.last_id_file st = Some raw ->
  Forall (fun c => PyStr.isspace c = true) raw ->
  Web.extract_tweets net (Web.X_USERNAME config) (Web.world st)
    = (newest :: rest, w') ->
  Web.read_last_id st = None
  /\ Web.sends (Web.main net config st) = Web.sends st
  /\ Web.last_id_file (Web.main net config st) = Some (Web.id newest).
Proof.
  intros Hfile Hblank E.
  assert (Hnone : Web.read_last_id st = None).
  { unfold Web.read_last_id. rewrite Hfile. unfold PyStr.strip.
    rewrite lstrip_blank; [reflexivity|].
    apply (universal_newlines_blank_bounded (length raw)); [lia|exact Hblank]. }
  split; [exact Hnone|]. unfold Web.main. rewrite Hnone, E. cbn. auto.
Qed.

Lemma blank_file_is_first_run_witness :
  let net := WebRuns.steady_net [WebRuns.tw "3"; WebRuns.tw "2"] (Web.Response 200) in
  let st : Web.St unit :=
    {| Web.last_id_file := Some [32; 13; 10; 9]; Web.world := tt; Web.sends := [] |} in
  Web.sends (Web.main net WebRuns.cfg st) = []
  /\ Web.last_id_file (Web.main net WebRuns.cfg st) = Some (lit "3").
Proof.
  cbv zeta.
  destruct (blank_file_is_first_run
              (WebRuns.steady_net [WebRuns.tw "3"; WebRuns.tw "2"] (Web.Response 200))
              WebRuns.cfg
              {| Web.last_id_file := Some [32; 13; 10; 9]; Web.world := tt;
                 Web.sends := [] |}
              [32; 13; 10; 9] (WebRuns.tw "3") [WebRuns.tw "2"] tt eq_refl)
    as (_ & H2 & H3); [|reflexivity|auto].
  repeat (constructor; [reflexivity|]). constructor.
Defined.

(** X17. When [_notify] raises, the send that raised is the last call of
    the cycle for that account: the tweets before it, oldest first, were
    delivered, and the newer ones are never handed to the notifier. *)
Theorem notify_stops_at_failed_send {W} (net : XTracker.Network W) username
    (tweets : list XTracker.tweet) (st : XTracker.St W) e :
  fst (XTracker._notify net username tweets st) = Raise e ->
  exists k tw,
    rev tweets !! k = Some tw
    /\ XTracker.st_log (snd (XTracker._notify net username tweets st))
       = XTracker.st_log st
         ++ List.map (fun t =>
              XTracker.CallSend (XTracker._format_message username t) true)
              (take k (rev tweets))
         ++ [XTracker.CallSend (XTracker._format_message username tw) false].
Proof.
  unfold XTracker._notify. generalize (rev tweets). clear tweets.
  intros l. revert st. induction l as [|x l IH]; intros st; [discriminate|].
  rewrite for_each_cons.
  destruct (send_message_spec net (XTracker._format_message username x) st)
    as (w' & ok & Hst & Hok).
  destruct (XTracker.send_message net (XTracker._format_message username x) st)
    as [[[]|e1] st1]; cbn [fst snd] in *; subst st1.
  - intros Hr. destruct (IH _ Hr) as (k & tw & Hk & Hlog).
    exists (S k), tw. split; [exact Hk|]. rewrite Hlog. cbn [XTracker.st_log].
    assert (ok = true) as -> by (apply Hok; reflexivity).
    cbn [take List.map]. rewrite <- !app_assoc. reflexivity.
  - intros _. exists O, x. split; [reflexivity|]. cbn [XTracker.st_log].
    destruct ok; [|reflexivity].
    assert (Habs : @Raise unit e1 = Ok tt) by (apply Hok; reflexivity). discriminate.
Qed.

Lemma notify_stops_at_failed_send_witness :
  let r := XTracker._notify (Demo.net (lit "X") 500) (lit "Y")
             [Demo.tweet_ "103"; Demo.tweet_ "102"; Demo.tweet_ "101"]
             (Demo.tracker [(lit "Y", None)] ∅) in
  fst r = Raise RuntimeError
  /\ XTracker.st_log (snd r)
     = [XTracker.CallSend
          (XTracker._format_message (lit "Y") (Demo.tweet_ "101")) false].
Proof.
  cbv zeta. split; [vm_compute; reflexivity|].
  destruct (notify_stops_at_failed_send (Demo.net (lit "X") 500) (lit "Y")
              [Demo.tweet_ "103"; Demo.tweet_ "102"; Demo.tweet_ "101"]
              (Demo.tracker [(lit "Y", None)] ∅) RuntimeError)
    as (k & tw & _ & _); [vm_compute; reflexivity|].
  vm_compute. reflexivity.
Defined.
